(** * clinvar_by_codon: re-indexing ClinVar annotations by protein position

    A shallow embedding of [clinvarbitration/clinvar_by_codon.py] and the
    properties of its three parts: the header schema extractor
    ([pull_vep_from_header]), the consequence extractor
    ([variant_consequences]) and the aggregation loop of [main].

    Python values are modelled as follows.
    - [str] is [string]; the methods used by the script ([split], [rstrip],
      [lower], [join], the [in] test, f-string formatting) are written out
      in [Module PyStr].  [lower] acts on the ASCII letters.
    - A raised exception is the [Raise] branch of [result]; the script never
      catches one, so an exception ends the run.
    - The [dict] built from one CSQ entry is a [gmap string string].
    - [defaultdict(set)] is an association list in key creation order (a
      Python dict iterates in insertion order) whose values are [gset string];
      the iteration order of a Python [set] is not specified, so whatever is
      written from a set is written for some enumeration of its elements. *)

From Stdlib Require Import String Ascii ZArith DecimalString DecimalPos DecimalZ.
From stdpp Require Import gmap strings list fin_maps sorting.

Local Open Scope string_scope.
Local Open Scope list_scope.

(** ** Exceptions *)

Inductive exn : Type :=
| KeyError (key : string)
| ValueError
| IndexError
| AttributeError.

Inductive result (A : Type) : Type :=
| Ok (a : A)
| Raise (e : exn).

Arguments Ok {A} a.
Arguments Raise {A} e.

#[global] Instance result_ret : MRet result := @Ok.

#[global] Instance result_bind : MBind result := λ A B k r,
  match r with
  | Ok a => k a
  | Raise e => Raise e
  end.

(** The two errors the specification names. *)
Definition SchemaNotFound : exn := IndexError.
Definition MalformedConsequence : exn := ValueError.

(** ** The string methods the script calls *)

Module PyStr.

(** [s.startswith(p)] *)
Fixpoint startswith (p s : string) : bool :=
  match p, s with
  | EmptyString, _ => true
  | String a p', String b s' => Ascii.eqb a b && startswith p' s'
  | String _ _, EmptyString => false
  end.

(** [needle in hay] *)
Fixpoint contains (needle hay : string) : bool :=
  startswith needle hay ||
  match hay with
  | EmptyString => false
  | String _ hay' => contains needle hay'
  end.

(** [s.split(sep)] for a non-empty [sep]: the text is cut at every
    occurrence of [sep], found from the left and without overlap; [skip]
    counts the characters of a matched separator still to be dropped and
    [cur] is the piece being read. *)
Fixpoint split_from (sep : string) (skip : nat) (cur s : string) : list string :=
  match s with
  | EmptyString => [cur]
  | String c s' =>
      match skip with
      | S n => split_from sep n cur s'
      | O =>
          if startswith sep s
          then cur :: split_from sep (String.length sep - 1) EmptyString s'
          else split_from sep O (cur +:+ String c EmptyString) s'
      end
  end.

Definition split (sep s : string) : list string :=
  split_from sep O EmptyString s.

(** [c in chars] for a character *)
Fixpoint char_in (c : ascii) (chars : string) : bool :=
  match chars with
  | EmptyString => false
  | String d chars' => Ascii.eqb c d || char_in c chars'
  end.

(** [s.rstrip(chars)]: every trailing character that occurs in [chars]
    is removed. *)
Fixpoint rstrip (chars s : string) : string :=
  match s with
  | EmptyString => EmptyString
  | String c s' =>
      match rstrip chars s' with
      | EmptyString => if char_in c chars then EmptyString else String c EmptyString
      | r => String c r
      end
  end.

Definition lower_char (c : ascii) : ascii :=
  let n := nat_of_ascii c in
  if (65 <=? n)%nat && (n <=? 90)%nat then ascii_of_nat (n + 32) else c.

(** [s.lower()] *)
Fixpoint lower (s : string) : string :=
  match s with
  | EmptyString => EmptyString
  | String c s' => String (lower_char c) (lower s')
  end.

(** [sep.join(parts)] *)
Definition join (sep : string) (parts : list string) : string :=
  String.concat sep parts.

(** [xs[-1]] *)
Definition last_item {A : Type} (xs : list A) : result A :=
  match last xs with
  | Some x => Ok x
  | None => Raise IndexError
  end.

(** The double quote character, [chr(34)]. *)
Definition dquote : string := String (ascii_of_nat 34) EmptyString.

End PyStr.

(** ** Data model *)

(** One element of [vcf.header_iter()], with the three entries the script
    reads.  Every element has a type.  The [and] of the source reads ['ID']
    from INFO elements only, and an INFO line enters the header under its ID,
    so [ID] is a plain field too (for an element of another type, which may
    have none, its content is never read).  A description may be missing, in
    which case [element['Description']] raises. *)
Record HeaderRec : Type := {
  HeaderType : string;
  ID : string;
  Description : option string
}.

(** A value of [variant.INFO]: an integer or a string entry. *)
Inductive info_value : Type :=
| IInt (z : Z)
| IStr (s : string).

Record Variant : Type := { INFO : gmap string info_value }.

(** [d[key]] *)
Definition getitem {V : Type} (d : gmap string V) (key : string) : result V :=
  match d !! key with
  | Some v => Ok v
  | None => Raise (KeyError key)
  end.

(** [v.split(sep)]: only a [str] has the method. *)
Definition info_split (v : info_value) (sep : string) : result (list string) :=
  match v with
  | IStr s => Ok (PyStr.split sep s)
  | IInt _ => Raise AttributeError
  end.

(** [f'{v}'] *)
Definition format (v : info_value) : string :=
  match v with
  | IInt z => NilZero.string_of_int (Z.to_int z)
  | IStr s => s
  end.

(** [zip(xs, ys, strict=True)], consumed whole: lengths that differ raise
    [ValueError]. *)
Definition zip_strict {A B : Type} (xs : list A) (ys : list B) : result (list (A * B)) :=
  if (length xs =? length ys)%nat then Ok (zip xs ys) else Raise ValueError.

(** [dict(pairs)]: a later pair with the same key replaces the value. *)
Definition dict (pairs : list (string * string)) : gmap string string :=
  fold_left (λ d kv, <[kv.1 := kv.2]> d) pairs ∅.

(** ** Header schema extractor *)

Definition is_csq_element (element : HeaderRec) : bool :=
  String.eqb (HeaderType element) "INFO" && String.eqb (ID element) "CSQ".

Definition parse_description (description : string) : result (list string) :=
  tail ← PyStr.last_item (PyStr.split "Format: " description);
  Ok (map PyStr.lower (PyStr.split "|" (PyStr.rstrip PyStr.dquote tail))).

Fixpoint pull_vep_from_header (header : list HeaderRec) : result (list string) :=
  match header with
  | [] => Raise IndexError
  | element :: rest =>
      if is_csq_element element
      then match Description element with
           | Some description => parse_description description
           | None => Raise (KeyError "Description")
           end
      else pull_vep_from_header rest
  end.

(** ** Consequence extractor *)

(** [dict(zip(csq_header, csq.split('|'), strict=True))] *)
Definition decode (csq_header : list string) (csq : string) : result (gmap string string) :=
  pairs ← zip_strict csq_header (PyStr.split "|" csq);
  Ok (dict pairs).

(** The loop of [variant_consequences] over the comma-separated entries;
    [consequences] is the list built so far. *)
Fixpoint consequences_loop (csq_header : list string) (entries : list string)
    (consequences : list (gmap string string)) : result (list (gmap string string)) :=
  match entries with
  | [] => Ok consequences
  | csq :: rest =>
      csq_dict ← decode csq_header csq;
      consequence ← getitem csq_dict "consequence";
      if PyStr.contains "missense_variant" consequence
      then consequences_loop csq_header rest (consequences ++ [csq_dict])
      else consequences_loop csq_header rest consequences
  end.

Definition variant_consequences (variant : Variant) (csq_header : list string)
    : result (list (gmap string string)) :=
  csq_value ← getitem (INFO variant) "CSQ";
  entries ← info_split csq_value ",";
  consequences_loop csq_header entries [].

(** ** Aggregator: the loops of [main] *)

(** [clinvar_dict[protein_key].add(clinvar_key)] on a [defaultdict(set)]:
    a key that is missing is created with the empty set, after all the
    existing keys, and the token is added to the set under the key. *)
Fixpoint defaultdict_add (clinvar_dict : list (string * gset string))
    (protein_key clinvar_key : string) : list (string * gset string) :=
  match clinvar_dict with
  | [] => [(protein_key, ∅ ∪ {[clinvar_key]})]
  | (key, value) :: rest =>
      if String.eqb key protein_key
      then (key, value ∪ {[clinvar_key]}) :: rest
      else (key, value) :: defaultdict_add rest protein_key clinvar_key
  end.

(** The inner loop: one addition for each retained consequence. *)
Fixpoint add_consequences (clinvar_dict : list (string * gset string))
    (clinvar_key : string) (csq_dicts : list (gmap string string))
    : result (list (string * gset string)) :=
  match csq_dicts with
  | [] => Ok clinvar_dict
  | csq_dict :: rest =>
      ensp ← getitem csq_dict "ensp";
      protein_position ← getitem csq_dict "protein_position";
      let protein_key := ensp +:+ ":" +:+ protein_position in
      add_consequences (defaultdict_add clinvar_dict protein_key clinvar_key)
        clinvar_key rest
  end.

(** The outer loop over the variants of the file. *)
Fixpoint variants_loop (header_csq : list string) (variants : list Variant)
    (clinvar_dict : list (string * gset string))
    : result (list (string * gset string)) :=
  match variants with
  | [] => Ok clinvar_dict
  | variant :: rest =>
      clinvar_allele ← getitem (INFO variant) "allele_id";
      clinvar_stars ← getitem (INFO variant) "gold_stars";
      let clinvar_key := format clinvar_allele +:+ ":" +:+ format clinvar_stars in
      csq_dicts ← variant_consequences variant header_csq;
      clinvar_dict' ← add_consequences clinvar_dict clinvar_key csq_dicts;
      variants_loop header_csq rest clinvar_dict'
  end.

(** What [VCF(input_vcf)] gives the script: the header elements and the
    variants, in file order. *)
Record VCF : Type := {
  header_iter : list HeaderRec;
  records : list Variant
}.

(** [main] up to the point where the output file is opened. *)
Definition aggregate (vcf_reader : VCF) : result (list (string * gset string)) :=
  header_csq ← pull_vep_from_header (header_iter vcf_reader);
  variants_loop header_csq (records vcf_reader) [].

(** One object written to the JSON file. *)
Record json_line : Type := {
  newkey : string;
  clinvar_alleles : string
}.

(** Iterating over a Python [set] visits every element once, in an order
    the language does not fix. *)
Definition iterates (value : gset string) (tokens : list string) : Prop :=
  tokens ≡ₚ elements value.

(** The line written for one item of [clinvar_dict.items()]. *)
Definition line_of (item : string * gset string) (line : json_line) : Prop :=
  newkey line = item.1 ∧
  ∃ tokens, iterates item.2 tokens ∧ clinvar_alleles line = PyStr.join "+" tokens.

(** The lines written by the loop over [clinvar_dict.items()], in order. *)
Definition written (clinvar_dict : list (string * gset string))
    (lines : list json_line) : Prop :=
  Forall2 line_of clinvar_dict lines.

(** A run of [main] that writes [lines]: no exception up to the end of the
    aggregation, then one line per entry. *)
Definition main (vcf_reader : VCF) (lines : list json_line) : Prop :=
  ∃ clinvar_dict, aggregate vcf_reader = Ok clinvar_dict ∧ written clinvar_dict lines.

(** ** Views used to state the properties *)

(** The header element the extractor looks for. *)
Definition csq_entry (element : HeaderRec) : Prop :=
  HeaderType element = "INFO" ∧ ID element = "CSQ".

(** An entry whose number of pipe-delimited values is not the number of
    schema names. *)
Definition mismatched (csq_header : list string) (csq : string) : Prop :=
  length (PyStr.split "|" csq) ≠ length csq_header.

(** The test of the [if] in [variant_consequences], on a decoded record. *)
Definition retained (csq_dict : gmap string string) : bool :=
  match csq_dict !! "consequence" with
  | Some consequence => PyStr.contains "missense_variant" consequence
  | None => false
  end.

(** The aggregation as a mapping from protein key to token set, forgetting
    the order in which the keys were created. *)
Definition as_mapping (clinvar_dict : list (string * gset string))
    : gmap string (gset string) :=
  list_to_map clinvar_dict.

(** A sequence of (ProteinKey, ClinicalKey) additions folded into a map. *)
Definition add_all (clinvar_dict : list (string * gset string))
    (pairs : list (string * string)) : list (string * gset string) :=
  fold_left (λ d kc, defaultdict_add d kc.1 kc.2) pairs clinvar_dict.

(** One addition, read on the mapping. *)
Definition mapping_add (m : gmap string (gset string)) (kc : string * string)
    : gmap string (gset string) :=
  <[kc.1 := default ∅ (m !! kc.1) ∪ {[kc.2]}]> m.

(** The distinct keys of a sequence, each at its first occurrence. *)
Fixpoint first_seen (keys : list string) : list string :=
  match keys with
  | [] => []
  | k :: rest => k :: filter (λ k', k' ≠ k) (first_seen rest)
  end.

(** The mathematical reading of [needle in hay]. *)
Definition substring (needle hay : string) : Prop :=
  ∃ before after, hay = before +:+ needle +:+ after.

(** ** Inputs of the worked scenarios *)

Definition vep_schema : list string :=
  ["allele"; "consequence"; "ensp"; "protein_position"].

Definition vep_description : string :=
  "Consequence annotations from Ensembl VEP. Format: Allele|Consequence|ENSP|Protein_position"
  +:+ PyStr.dquote.

Definition csq_element : HeaderRec :=
  {| HeaderType := "INFO"; ID := "CSQ"; Description := Some vep_description |}.

Definition variant_of (allele_id gold_stars : Z) (csq : string) : Variant :=
  {| INFO := <["allele_id" := IInt allele_id]>
             (<["gold_stars" := IInt gold_stars]>
             (<["CSQ" := IStr csq]> ∅)) |}.

Definition variant_A : Variant := variant_of 10 2 "x|missense_variant|ENSP1|45".
Definition variant_B : Variant :=
  variant_of 11 1 "x|missense_variant|ENSP1|45,x|stop_gained|ENSP2|9".

(** A variant with a missense, a synonymous and a combined missense entry. *)
Definition variant_mixed : Variant :=
  variant_of 12 3
    "x|missense_variant|ENSP1|45,x|synonymous_variant|ENSP1|46,x|missense_variant&splice_region_variant|ENSP2|7".

(** A variant whose second entry has three values only. *)
Definition variant_short : Variant :=
  variant_of 13 1 "x|missense_variant|ENSP1|45,x|synonymous_variant|ENSP1".

(** A schema as VEP writes it when the consequence field is not selected,
    and a variant annotated under it whose second entry is cut short. *)
Definition gene_schema : list string :=
  ["allele"; "symbol"; "ensp"; "protein_position"].

Definition variant_gene : Variant :=
  variant_of 14 1 "x|BRCA1|ENSP1|45,x|BRCA1|ENSP2".

(** The same with the gene identifier in place of the symbol. *)
Definition ensg_schema : list string :=
  ["allele"; "gene"; "ensp"; "protein_position"].

Definition variant_ensg : Variant :=
  variant_of 15 2 "x|ENSG1|ENSP1|45,x|ENSG1".

(** The expected outcome of the scenario with the variants A and B. *)
Definition final_map : list (string * gset string) :=
  [("ENSP1:45", {["10:2"; "11:1"]})].

Definition line_forward : json_line :=
  {| newkey := "ENSP1:45"; clinvar_alleles := "10:2+11:1" |}.

Definition line_backward : json_line :=
  {| newkey := "ENSP1:45"; clinvar_alleles := "11:1+10:2" |}.

(** Additions in two orders: the same pairs, the keys met in another order. *)
Definition pairs_forward : list (string * string) :=
  [("ENSP1:45", "10:2"); ("ENSP2:9", "12:0"); ("ENSP1:45", "11:1")].

Definition pairs_shuffled : list (string * string) :=
  [("ENSP2:9", "12:0"); ("ENSP1:45", "11:1"); ("ENSP1:45", "10:2")].

(** ** Further views *)

(** The token is stored under the key. *)
Definition holds (clinvar_dict : list (string * gset string))
    (protein_key clinvar_key : string) : Prop :=
  ∃ value, as_mapping clinvar_dict !! protein_key = Some value ∧ clinvar_key ∈ value.

(** What one variant adds in [main]: its clinical token, under the protein
    key of each of its retained consequences. *)
Definition contributes (header_csq : list string) (variant : Variant)
    (protein_key clinvar_key : string) : Prop :=
  ∃ clinvar_allele clinvar_stars csq_dicts csq_dict ensp protein_position,
    INFO variant !! "allele_id" = Some clinvar_allele ∧
    INFO variant !! "gold_stars" = Some clinvar_stars ∧
    variant_consequences variant header_csq = Ok csq_dicts ∧
    csq_dict ∈ csq_dicts ∧
    csq_dict !! "ensp" = Some ensp ∧
    csq_dict !! "protein_position" = Some protein_position ∧
    protein_key = ensp +:+ ":" +:+ protein_position ∧
    clinvar_key = format clinvar_allele +:+ ":" +:+ format clinvar_stars.

(** A variant the outer loop of [main] gets through. *)
Definition usable (header_csq : list string) (variant : Variant) : Prop :=
  is_Some (INFO variant !! "allele_id") ∧
  is_Some (INFO variant !! "gold_stars") ∧
  ∃ csq_dicts,
    variant_consequences variant header_csq = Ok csq_dicts ∧
    Forall (λ csq_dict, is_Some (csq_dict !! "ensp") ∧
                        is_Some (csq_dict !! "protein_position")) csq_dicts.

(** Keys are distinct and no key has an empty set. *)
Definition tidy (clinvar_dict : list (string * gset string)) : Prop :=
  NoDup clinvar_dict.*1 ∧ Forall (λ item, item.2 ≠ ∅) clinvar_dict.


Definition variant_stop : Variant := variant_of 16 1 "x|stop_gained|ENSP2|9".

Definition silent_vcf : VCF :=
  {| header_iter := [csq_element]; records := [variant_stop] |}.

Definition earlier_map : list (string * gset string) :=
  [("ENSP9:1", {["7:1"]})].

(** A variant whose two ClinVar entries are integers, as written by the
    upstream script. *)
Definition integer_fields (variant : Variant) : Prop :=
  ∃ allele_id gold_stars : Z,
    INFO variant !! "allele_id" = Some (IInt allele_id) ∧
    INFO variant !! "gold_stars" = Some (IInt gold_stars).

(** A header with two CSQ elements and one whose description has no
    format marker. *)
Definition second_csq_element : HeaderRec :=
  {| HeaderType := "INFO"; ID := "CSQ"; Description := Some "Format: A|B" |}.

Definition bare_csq_element : HeaderRec :=
  {| HeaderType := "INFO"; ID := "CSQ"; Description := Some "Allele|Consequence" |}.

(** ** The text written to the JSON file *)

(** [json.dumps] with its defaults ([ensure_ascii=True], separators [", "]
    and [": "]) on the dictionary of one line, whose two values are strings.
    A character is kept when it is printable ASCII other than the quote and
    the backslash; the quote, the backslash and five control characters have
    a two-character escape; every other character is written as a backslash,
    [u] and four hexadecimal digits.  Characters are code points below 256. *)
Module PyJson.

Definition newline : ascii := ascii_of_nat 10.

(** The lower-case hexadecimal digit of a number below 16. *)
Definition hex_digit (n : nat) : ascii :=
  if (n <? 10)%nat then ascii_of_nat (48 + n) else ascii_of_nat (87 + n).

Definition escape_char (c : ascii) : string :=
  let n := nat_of_ascii c in
  if (n =? 34)%nat then "\" +:+ PyStr.dquote
  else if (n =? 92)%nat then "\\"
  else if (n =? 10)%nat then "\n"
  else if (n =? 13)%nat then "\r"
  else if (n =? 9)%nat then "\t"
  else if (n =? 12)%nat then "\f"
  else if (n =? 8)%nat then "\b"
  else if (32 <=? n)%nat && (n <=? 126)%nat then String c EmptyString
  else "\u00" +:+ String (hex_digit (n / 16))
                   (String (hex_digit (n mod 16)) EmptyString).

Fixpoint escape (s : string) : string :=
  match s with
  | EmptyString => EmptyString
  | String c s' => escape_char c +:+ escape s'
  end.

(** The JSON text of a string. *)
Definition encode_str (s : string) : string :=
  PyStr.dquote +:+ escape s +:+ PyStr.dquote.

(** [json.dumps({'newkey': key, 'clinvar_alleles': value})] *)
Definition dumps (line : json_line) : string :=
  "{" +:+ encode_str "newkey" +:+ ": " +:+ encode_str (newkey line) +:+ ", "
  +:+ encode_str "clinvar_alleles" +:+ ": " +:+ encode_str (clinvar_alleles line)
  +:+ "}".

End PyJson.

(** The content of the file after the loop of [f.write]: the text of each
    line followed by a newline. *)
Fixpoint file_text (lines : list json_line) : string :=
  match lines with
  | [] => EmptyString
  | line :: rest => PyJson.dumps line +:+ String PyJson.newline (file_text rest)
  end.

(** Printable ASCII, from the space to the tilde. *)
Fixpoint printable (s : string) : bool :=
  match s with
  | EmptyString => true
  | String c s' =>
      (32 <=? nat_of_ascii c)%nat && (nat_of_ascii c <=? 126)%nat && printable s'
  end.

Definition hex_value (a : ascii) : option nat :=
  let n := nat_of_ascii a in
  if (48 <=? n)%nat && (n <=? 57)%nat then Some (n - 48)
  else if (97 <=? n)%nat && (n <=? 102)%nat then Some (n - 87)
  else None.

(** Reading one escaped character back from the front of a text, as a JSON
    reader does; used to show that the escaping loses nothing. *)
Definition unescape_head (s : string) : option (ascii * string) :=
  match s with
  | EmptyString => None
  | String c r =>
      if Ascii.eqb c "\" then
        match r with
        | EmptyString => None
        | String x r' =>
            if Ascii.eqb x "u" then
              match r' with
              | String _ (String _ (String h (String l r''))) =>
                  match hex_value h, hex_value l with
                  | Some hv, Some lv => Some (ascii_of_nat (16 * hv + lv), r'')
                  | _, _ => None
                  end
              | _ => None
              end
            else if Ascii.eqb x "n" then Some (ascii_of_nat 10, r')
            else if Ascii.eqb x "r" then Some (ascii_of_nat 13, r')
            else if Ascii.eqb x "t" then Some (ascii_of_nat 9, r')
            else if Ascii.eqb x "f" then Some (ascii_of_nat 12, r')
            else if Ascii.eqb x "b" then Some (ascii_of_nat 8, r')
            else if Ascii.eqb x "\" then Some (x, r')
            else if Ascii.eqb x (ascii_of_nat 34) then Some (x, r')
            else None
        end
      else Some (c, r)
  end.

(** * Properties *)

(** ** The exception monad *)

Lemma bind_Ok {A B : Type} (a : A) (k : A → result B) : (Ok a ≫= k) = k a.
Proof. reflexivity. Qed.

Lemma bind_Raise {A B : Type} (e : exn) (k : A → result B) :
  (Raise e ≫= k) = Raise e.
Proof. reflexivity. Qed.

Lemma bind_Ok_inv {A B : Type} (r : result A) (k : A → result B) (b : B) :
  (r ≫= k) = Ok b → ∃ a, r = Ok a ∧ k a = Ok b.
Proof. destruct r as [a|e]; [eauto | discriminate]. Qed.

Lemma getitem_Ok {V : Type} (d : gmap string V) (key : string) (v : V) :
  getitem d key = Ok v ↔ d !! key = Some v.
Proof. unfold getitem. destruct (d !! key); split; congruence. Qed.

(** ** Strings *)

Section strings.

Lemma ascii_eqb_true (a b : ascii) : Ascii.eqb a b = true ↔ a = b.
Proof. apply Ascii.eqb_eq. Qed.

Lemma startswith_spec (p s : string) :
  PyStr.startswith p s = true ↔ ∃ rest, s = p +:+ rest.
Proof.
  revert s. induction p as [|a p IH]; intros s; simpl.
  - split; [eauto | done].
  - destruct s as [|b s].
    + split; [done | intros [rest Hrest]; discriminate].
    + rewrite andb_true_iff, ascii_eqb_true, IH. split.
      * intros [-> [rest ->]]. eauto.
      * intros [rest Hrest]. injection Hrest as -> ->. eauto.
Qed.

(** The [in] test of the script decides the substring relation. *)
Lemma contains_spec (needle hay : string) :
  PyStr.contains needle hay = true ↔ substring needle hay.
Proof.
  unfold substring. induction hay as [|c hay IH].
  - simpl. rewrite orb_false_r, startswith_spec. split.
    + intros [rest Hrest]. by exists EmptyString, rest.
    + intros [[|b before] [after Heq]]; [eauto | discriminate].
  - cbn [PyStr.contains]. rewrite orb_true_iff, startswith_spec, IH. split.
    + intros [[rest Hrest] | (before & after & Heq)].
      * by exists EmptyString, rest.
      * exists (String c before), after. by rewrite Heq.
    + intros [[|b before] [after Heq]].
      * left. eauto.
      * right. injection Heq as -> ->. eauto.
Qed.

Lemma split_from_not_nil (sep : string) (skip : nat) (cur s : string) :
  PyStr.split_from sep skip cur s ≠ [].
Proof.
  revert skip cur. induction s as [|c s IH]; intros skip cur; simpl; [done|].
  destruct skip; [|apply IH].
  destruct (PyStr.startswith sep (String c s)); [done | apply IH].
Qed.

Example split_commas : PyStr.split "," "a,b,,c," = ["a"; "b"; ""; "c"; ""].
Proof. reflexivity. Qed.

Example split_empty : PyStr.split "," "" = [""].
Proof. reflexivity. Qed.

Example split_marker :
  PyStr.split "Format: " "one Format: A|B Format: C" = ["one "; "A|B "; "C"].
Proof. reflexivity. Qed.

Example split_no_overlap : PyStr.split "aa" "aaa" = [""; "a"].
Proof. reflexivity. Qed.

Example rstrip_all_trailing : PyStr.rstrip "xy" "abxcxyx" = "abxc".
Proof. reflexivity. Qed.

Example lower_ascii : PyStr.lower "Protein_position" = "protein_position".
Proof. reflexivity. Qed.

Example format_int : format (IInt 10) = "10" ∧ format (IInt (-7)) = "-7".
Proof. split; reflexivity. Qed.

(** [split] always gives at least one piece. *)
Lemma split_not_nil (sep s : string) : PyStr.split sep s ≠ [].
Proof. apply split_from_not_nil. Qed.

End strings.

(** ** Header schema extractor *)

Section header.

Lemma is_csq_element_true (element : HeaderRec) :
  is_csq_element element = true ↔ csq_entry element.
Proof.
  unfold is_csq_element, csq_entry.
  by rewrite andb_true_iff, !String.eqb_eq.
Qed.

Lemma is_csq_element_false (element : HeaderRec) :
  is_csq_element element = false ↔ ¬ csq_entry element.
Proof.
  rewrite <- is_csq_element_true. by destruct (is_csq_element element).
Qed.

(** Elements that are not the CSQ entry are passed over. *)
Lemma pull_vep_skip (before rest : list HeaderRec) :
  Forall (λ element, ¬ csq_entry element) before →
  pull_vep_from_header (before ++ rest) = pull_vep_from_header rest.
Proof.
  induction 1 as [|element before Hno _ IH]; [done|].
  simpl. apply is_csq_element_false in Hno. by rewrite Hno.
Qed.

(** The first CSQ entry decides the result. *)
Lemma pull_vep_found (before rest : list HeaderRec) (element : HeaderRec)
    (description : string) :
  Forall (λ element, ¬ csq_entry element) before →
  csq_entry element →
  Description element = Some description →
  pull_vep_from_header (before ++ element :: rest) = parse_description description.
Proof.
  intros Hbefore Hcsq Hdesc. rewrite pull_vep_skip by done.
  simpl. apply is_csq_element_true in Hcsq. by rewrite Hcsq, Hdesc.
Qed.

(** Reading a description never raises: [split] gives a last piece. *)
Lemma parse_description_Ok (description : string) :
  ∃ schema, parse_description description = Ok schema.
Proof.
  unfold parse_description, PyStr.last_item.
  destruct (last (PyStr.split "Format: " description)) as [tail|] eqn:Hlast.
  - eauto.
  - apply last_None in Hlast. by apply split_not_nil in Hlast.
Qed.

End header.

(** C4 (SchemaNotFound).  For every header in which no element has category
    INFO and identifier CSQ, [pull_vep_from_header] raises the
    schema-not-found error ([IndexError]) instead of returning a schema; the
    error is raised before any variant is read, so the run has no aggregation
    and writes no line, whatever the records of the file are. *)
Theorem schema_not_found (header : list HeaderRec) (variants : list Variant) :
  (∀ element, element ∈ header → ¬ csq_entry element) →
  pull_vep_from_header header = Raise SchemaNotFound ∧
  aggregate {| header_iter := header; records := variants |} = Raise SchemaNotFound ∧
  ∀ lines, ¬ main {| header_iter := header; records := variants |} lines.
Proof.
  intros Hno.
  assert (pull_vep_from_header header = Raise SchemaNotFound) as Hpull.
  { rewrite <- (app_nil_r header). rewrite pull_vep_skip; [done|].
    by apply Forall_forall. }
  split; [done|]. unfold main, aggregate. simpl. rewrite Hpull. split; [done|].
  intros lines (clinvar_dict & Hagg & _). discriminate.
Qed.

Lemma schema_not_found_witness :
  pull_vep_from_header
    [ {| HeaderType := "GENERIC"; ID := "fileformat"; Description := None |};
      {| HeaderType := "INFO"; ID := "allele_id"; Description := Some "ClinVar allele" |};
      {| HeaderType := "FORMAT"; ID := "CSQ"; Description := Some "Format: A|B" |} ]
  = Raise SchemaNotFound.
Proof.
  refine (proj1 (schema_not_found _ [variant_A] _)).
  intros element Hin. unfold csq_entry.
  repeat (apply elem_of_cons in Hin as [-> | Hin]; [simpl; intros [? ?]; discriminate|]).
  by apply elem_of_nil in Hin.
Defined.

(** C5 (header extraction).  For the INFO element with identifier CSQ whose
    description is [Consequence annotations from Ensembl VEP. Format:
    Allele|Consequence|ENSP|Protein_position] followed by a double quote, the
    extractor returns exactly [allele; consequence; ensp; protein_position]:
    the last piece after the marker ["Format: "] is taken, the trailing
    quote stripped, the rest split on ["|"] and every name lower-cased. *)
Theorem header_extraction :
  pull_vep_from_header [csq_element]
    = Ok ["allele"; "consequence"; "ensp"; "protein_position"] ∧
  PyStr.last_item (PyStr.split "Format: " vep_description)
    = Ok ("Allele|Consequence|ENSP|Protein_position" +:+ PyStr.dquote) ∧
  PyStr.rstrip PyStr.dquote ("Allele|Consequence|ENSP|Protein_position" +:+ PyStr.dquote)
    = "Allele|Consequence|ENSP|Protein_position" ∧
  PyStr.split "|" "Allele|Consequence|ENSP|Protein_position"
    = ["Allele"; "Consequence"; "ENSP"; "Protein_position"] ∧
  map PyStr.lower ["Allele"; "Consequence"; "ENSP"; "Protein_position"]
    = ["allele"; "consequence"; "ensp"; "protein_position"].
Proof. repeat split; vm_compute; reflexivity. Qed.

(** The same element is found behind any elements that are not the CSQ
    entry, and whatever follows it. *)
Lemma csq_element_in_context (before rest : list HeaderRec) :
  Forall (λ element, ¬ csq_entry element) before →
  pull_vep_from_header (before ++ csq_element :: rest) = Ok vep_schema.
Proof.
  intros Hbefore.
  rewrite (pull_vep_found before rest csq_element vep_description); try done.
Qed.

(** ** Consequence extractor *)

Section decoding.

Implicit Types (csq_header entries : list string) (csq : string).
Implicit Types (csq_dict : gmap string string).

Lemma zip_strict_Ok {A B : Type} (xs : list A) (ys : list B) :
  length xs = length ys → zip_strict xs ys = Ok (zip xs ys).
Proof. intros Hlen. unfold zip_strict. by rewrite (proj2 (Nat.eqb_eq _ _) Hlen). Qed.

Lemma zip_strict_Raise {A B : Type} (xs : list A) (ys : list B) :
  length xs ≠ length ys → zip_strict xs ys = Raise ValueError.
Proof. intros Hlen. unfold zip_strict. by rewrite (proj2 (Nat.eqb_neq _ _) Hlen). Qed.

Lemma decode_mismatched csq_header csq :
  mismatched csq_header csq → decode csq_header csq = Raise MalformedConsequence.
Proof.
  intros Hlen. unfold decode. rewrite zip_strict_Raise; [done|].
  intros Heq. by apply Hlen.
Qed.

Lemma decode_matched csq_header csq :
  ¬ mismatched csq_header csq →
  decode csq_header csq = Ok (dict (zip csq_header (PyStr.split "|" csq))).
Proof.
  intros Hlen. unfold decode. rewrite zip_strict_Ok; [done|].
  unfold mismatched in Hlen. lia.
Qed.

Lemma mismatched_dec csq_header csq :
  mismatched csq_header csq ∨ ¬ mismatched csq_header csq.
Proof. unfold mismatched. destruct (decide (length (PyStr.split "|" csq) = length csq_header)); tauto. Qed.

(** [dict]: lookups after folding the pairs into a map. *)
Lemma dict_fold_absent (pairs : list (string * string)) (m : gmap string string) key :
  key ∉ pairs.*1 →
  fold_left (λ d kv, <[kv.1 := kv.2]> d) pairs m !! key = m !! key.
Proof.
  revert m. induction pairs as [|[k v] pairs IH]; intros m Hnot; [done|].
  simpl in *. apply not_elem_of_cons in Hnot as [Hne Hnot].
  rewrite IH by done. by rewrite lookup_insert_ne.
Qed.

Lemma dict_fold_present (pairs : list (string * string)) (m : gmap string string) key :
  key ∈ pairs.*1 →
  is_Some (fold_left (λ d kv, <[kv.1 := kv.2]> d) pairs m !! key).
Proof.
  revert m. induction pairs as [|[k v] pairs IH]; intros m Hin; simpl in *.
  - by apply elem_of_nil in Hin.
  - destruct (decide (key ∈ pairs.*1)) as [Hrest|Hrest]; [by apply IH|].
    apply elem_of_cons in Hin as [->|Hin]; [|done].
    rewrite dict_fold_absent by done. rewrite lookup_insert_eq. eauto.
Qed.

(** With distinct names every value is found under the name it was
    paired with. *)
Lemma dict_fold_lookup (pairs : list (string * string)) (m : gmap string string) key value :
  NoDup pairs.*1 → (key, value) ∈ pairs →
  fold_left (λ d kv, <[kv.1 := kv.2]> d) pairs m !! key = Some value.
Proof.
  revert m. induction pairs as [|[k v] pairs IH]; intros m Hnodup Hin; simpl in *.
  - by apply elem_of_nil in Hin.
  - apply NoDup_cons in Hnodup as [Hk Hnodup].
    apply elem_of_cons in Hin as [Heq|Hin].
    + injection Heq as -> ->. rewrite dict_fold_absent by done.
      by rewrite lookup_insert_eq.
    + by apply IH.
Qed.

Lemma dict_key_present csq_header (values : list string) key :
  length csq_header = length values → key ∈ csq_header →
  is_Some (dict (zip csq_header values) !! key).
Proof.
  intros Hlen Hin. apply dict_fold_present. rewrite fst_zip; [done|lia].
Qed.

Lemma dict_key_absent csq_header (values : list string) key :
  key ∉ csq_header → dict (zip csq_header values) !! key = None.
Proof.
  intros Hnot. unfold dict. rewrite dict_fold_absent; [done|].
  intros Hin. apply Hnot. apply list_elem_of_fmap in Hin as ([k v] & -> & Hin).
  by apply elem_of_zip_l in Hin.
Qed.

(** Positional decoding in general: with distinct schema names, the value
    at position [i] of the entry is stored under the name at position [i]
    of the schema. *)
Lemma decode_positional csq_header csq csq_dict (i : nat) name value :
  NoDup csq_header →
  decode csq_header csq = Ok csq_dict →
  csq_header !! i = Some name →
  PyStr.split "|" csq !! i = Some value →
  csq_dict !! name = Some value.
Proof.
  intros Hnodup Hdec Hname Hvalue.
  destruct (mismatched_dec csq_header csq) as [Hmis|Hok].
  - rewrite decode_mismatched in Hdec by done. discriminate.
  - rewrite decode_matched in Hdec by done. injection Hdec as <-.
    unfold mismatched in Hok.
    apply dict_fold_lookup.
    + rewrite fst_zip; [done|lia].
    + apply list_elem_of_lookup. exists i.
      by rewrite lookup_zip_with, Hname, Hvalue.
Qed.

End decoding.

Section extractor.

Implicit Types (csq_header entries : list string) (csq : string).
Implicit Types (csq_dict : gmap string string).
Implicit Types (consequences records : list (gmap string string)).

Lemma retained_spec csq_dict :
  retained csq_dict = true ↔
  ∃ consequence, csq_dict !! "consequence" = Some consequence ∧
                 substring "missense_variant" consequence.
Proof.
  unfold retained. destruct (csq_dict !! "consequence") as [consequence|].
  - rewrite contains_spec. split; [eauto|]. by intros (? & [= <-] & ?).
  - split; [done|]. by intros (? & ? & _).
Qed.

(** One pass of the loop on an entry that decodes and has a consequence
    type: the record is appended exactly when the type has the missense
    substring. *)
Lemma consequences_loop_step csq_header csq entries consequences csq_dict :
  decode csq_header csq = Ok csq_dict →
  is_Some (csq_dict !! "consequence") →
  consequences_loop csq_header (csq :: entries) consequences
  = consequences_loop csq_header entries
      (consequences ++ List.filter retained [csq_dict]).
Proof.
  intros Hdec [consequence Hty]. simpl. rewrite Hdec, bind_Ok.
  unfold getitem, retained. rewrite Hty, bind_Ok.
  destruct (PyStr.contains "missense_variant" consequence); [done|].
  by rewrite app_nil_r.
Qed.

(** The extractor returns exactly when every entry decodes to a record
    with a consequence type; the result is then the retained records, in
    the order of the entries. *)
Lemma consequences_loop_Ok csq_header entries consequences result :
  consequences_loop csq_header entries consequences = Ok result ↔
  ∃ records,
    Forall2 (λ csq csq_dict, decode csq_header csq = Ok csq_dict) entries records ∧
    Forall (λ csq_dict, is_Some (csq_dict !! "consequence")) records ∧
    result = consequences ++ List.filter retained records.
Proof.
  revert consequences. induction entries as [|csq entries IH]; intros consequences.
  - simpl. split.
    + intros [= <-]. exists []. by rewrite app_nil_r.
    + intros (records & Hdec & _ & ->). apply Forall2_nil_inv_l in Hdec as ->.
      simpl. by rewrite app_nil_r.
  - split.
    + intros Hloop. cbn [consequences_loop] in Hloop.
      apply bind_Ok_inv in Hloop as (csq_dict & Hdec & Hloop).
      apply bind_Ok_inv in Hloop as (consequence & Hty & Hloop).
      apply getitem_Ok in Hty.
      assert (consequences_loop csq_header entries
                (consequences ++ List.filter retained [csq_dict]) = Ok result)
        as Hrest.
      { simpl. unfold retained. rewrite Hty.
        destruct (PyStr.contains "missense_variant" consequence); [done|].
        by rewrite app_nil_r. }
      apply IH in Hrest as (records & Hrecs & Hall & ->).
      exists (csq_dict :: records). split; [by constructor|].
      split; [constructor; eauto|].
      rewrite <- app_assoc. simpl. by destruct (retained csq_dict).
    + intros (records & Hrecs & Hall & ->).
      apply Forall2_cons_inv_l in Hrecs as (csq_dict & records' & Hdec & Hrecs & ->).
      apply Forall_cons in Hall as [Hty Hall].
      rewrite (consequences_loop_step _ _ _ _ csq_dict) by done.
      apply IH. exists records'. split; [done|]. split; [done|].
      rewrite <- app_assoc. simpl. by destruct (retained csq_dict).
Qed.

(** A mismatched entry makes the loop raise: the zip error, unless an
    earlier entry was decoded under a schema without the name
    [consequence], whose lookup then raised first. *)
Lemma consequences_loop_mismatched csq_header entries consequences csq :
  csq ∈ entries → mismatched csq_header csq →
  consequences_loop csq_header entries consequences = Raise MalformedConsequence ∨
  (("consequence" ∉ csq_header) ∧
   consequences_loop csq_header entries consequences = Raise (KeyError "consequence")).
Proof.
  intros Hin Hmis. revert consequences.
  induction entries as [|head entries IH]; intros consequences.
  - by apply elem_of_nil in Hin.
  - cbn [consequences_loop].
    destruct (mismatched_dec csq_header head) as [Hhead|Hhead].
    + left. by rewrite decode_mismatched.
    + apply elem_of_cons in Hin as [->|Hin]; [done|].
      rewrite decode_matched, bind_Ok by done.
      destruct (decide ("consequence" ∈ csq_header)) as [Hkey|Hkey].
      * destruct (dict_key_present csq_header (PyStr.split "|" head) "consequence")
          as [consequence Hty]; [unfold mismatched in Hhead; lia | done |].
        unfold getitem. rewrite Hty, bind_Ok.
        destruct (PyStr.contains "missense_variant" consequence); by apply IH.
      * right. split; [done|]. unfold getitem.
        by rewrite dict_key_absent.
Qed.

(** The first pass over a mismatched entry raises the zip error, whatever
    the schema and whatever the entry holds: the lookup of the consequence
    type and the missense test come after the zip. *)
Lemma consequences_loop_head_mismatched csq_header csq entries consequences :
  mismatched csq_header csq →
  consequences_loop csq_header (csq :: entries) consequences
  = Raise MalformedConsequence.
Proof. intros Hmis. simpl. by rewrite decode_mismatched. Qed.

Lemma variant_consequences_unfold (variant : Variant) csq_header csq :
  INFO variant !! "CSQ" = Some (IStr csq) →
  variant_consequences variant csq_header
  = consequences_loop csq_header (PyStr.split "," csq) [].
Proof. intros Hcsq. unfold variant_consequences, getitem. by rewrite Hcsq. Qed.

Lemma variant_consequences_Ok_inv (variant : Variant) csq_header consequences :
  variant_consequences variant csq_header = Ok consequences →
  ∃ csq, INFO variant !! "CSQ" = Some (IStr csq).
Proof.
  unfold variant_consequences, getitem. intros Hres.
  destruct (INFO variant !! "CSQ") as [[z|csq]|]; try discriminate. eauto.
Qed.

End extractor.

(** C8 (positional decoding).  Under the schema [allele; consequence; ensp;
    protein_position] the entry [A|missense_variant|ENSP1|45] decodes to the
    record that pairs each value with the schema name at the same position:
    it maps [ensp] to [ENSP1] and [protein_position] to [45] (and [allele]
    to [A], [consequence] to [missense_variant], and nothing else). *)
Theorem positional_decoding :
  ∃ csq_dict,
    decode vep_schema "A|missense_variant|ENSP1|45" = Ok csq_dict ∧
    csq_dict !! "ensp" = Some "ENSP1" ∧
    csq_dict !! "protein_position" = Some "45" ∧
    csq_dict !! "allele" = Some "A" ∧
    csq_dict !! "consequence" = Some "missense_variant" ∧
    size csq_dict = 4.
Proof.
  exists (dict (zip vep_schema ["A"; "missense_variant"; "ENSP1"; "45"])).
  split; [reflexivity|].
  assert (NoDup vep_schema) as Hnodup
    by (apply (bool_decide_unpack _); vm_compute; exact I).
  assert (decode vep_schema "A|missense_variant|ENSP1|45"
          = Ok (dict (zip vep_schema ["A"; "missense_variant"; "ENSP1"; "45"])))
    as Hdec by reflexivity.
  split_and!.
  - by apply (decode_positional _ _ _ 2 _ _ Hnodup Hdec).
  - by apply (decode_positional _ _ _ 3 _ _ Hnodup Hdec).
  - by apply (decode_positional _ _ _ 0 _ _ Hnodup Hdec).
  - by apply (decode_positional _ _ _ 1 _ _ Hnodup Hdec).
  - by vm_compute.
Qed.

(** C2 (filter correctness).  Whenever the extractor returns for a variant
    and a schema, the variant has a CSQ string, every comma-separated entry
    of it decoded to a record, and the result is those records filtered, in
    order, by the missense test: a decoded record is in the result if and
    only if its consequence type contains the substring [missense_variant].
    A record whose type is exactly [synonymous_variant] is never in the
    result; a decoded record whose type is [missense_variant] or
    [missense_variant&splice_region_variant] is. *)
Theorem filter_correctness (variant : Variant) (csq_header : list string)
    (consequences : list (gmap string string)) :
  variant_consequences variant csq_header = Ok consequences →
  ∃ csq records,
    INFO variant !! "CSQ" = Some (IStr csq) ∧
    Forall2 (λ entry csq_dict, decode csq_header entry = Ok csq_dict)
      (PyStr.split "," csq) records ∧
    consequences = List.filter retained records ∧
    (∀ csq_dict, csq_dict ∈ consequences ↔
       csq_dict ∈ records ∧
       ∃ consequence, csq_dict !! "consequence" = Some consequence ∧
                      substring "missense_variant" consequence) ∧
    (∀ csq_dict, csq_dict !! "consequence" = Some "synonymous_variant" →
       csq_dict ∉ consequences) ∧
    (∀ csq_dict, csq_dict ∈ records →
       csq_dict !! "consequence" = Some "missense_variant" ∨
       csq_dict !! "consequence" = Some "missense_variant&splice_region_variant" →
       csq_dict ∈ consequences).
Proof.
  intros Hres.
  destruct (variant_consequences_Ok_inv _ _ _ Hres) as [csq Hcsq].
  rewrite (variant_consequences_unfold _ _ _ Hcsq) in Hres.
  apply consequences_loop_Ok in Hres as (records & Hrecs & _ & ->).
  exists csq, records. simpl.
  assert (∀ csq_dict, csq_dict ∈ List.filter retained records ↔
            csq_dict ∈ records ∧ retained csq_dict = true) as Hfilter.
  { intros csq_dict. rewrite !list_elem_of_In. apply filter_In. }
  split_and!; try done.
  - intros csq_dict. by rewrite Hfilter, retained_spec.
  - intros csq_dict Hty Hin. apply Hfilter in Hin as [_ Hret].
    unfold retained in Hret. rewrite Hty in Hret. vm_compute in Hret. discriminate.
  - intros csq_dict Hin Hty. apply Hfilter. split; [done|].
    unfold retained. by destruct Hty as [-> | ->].
Qed.

Lemma filter_correctness_witness :
  ∃ csq records,
    INFO variant_mixed !! "CSQ" = Some (IStr csq) ∧
    Forall2 (λ entry csq_dict, decode vep_schema entry = Ok csq_dict)
      (PyStr.split "," csq) records ∧
    [ dict (zip vep_schema ["x"; "missense_variant"; "ENSP1"; "45"]);
      dict (zip vep_schema ["x"; "missense_variant&splice_region_variant"; "ENSP2"; "7"]) ]
    = List.filter retained records ∧
    (∀ csq_dict,
       csq_dict ∈ [ dict (zip vep_schema ["x"; "missense_variant"; "ENSP1"; "45"]);
                    dict (zip vep_schema ["x"; "missense_variant&splice_region_variant"; "ENSP2"; "7"]) ]
       ↔ csq_dict ∈ records ∧
         ∃ consequence, csq_dict !! "consequence" = Some consequence ∧
                        substring "missense_variant" consequence) ∧
    (∀ csq_dict, csq_dict !! "consequence" = Some "synonymous_variant" →
       csq_dict ∉ [ dict (zip vep_schema ["x"; "missense_variant"; "ENSP1"; "45"]);
                    dict (zip vep_schema ["x"; "missense_variant&splice_region_variant"; "ENSP2"; "7"]) ]) ∧
    (∀ csq_dict, csq_dict ∈ records →
       csq_dict !! "consequence" = Some "missense_variant" ∨
       csq_dict !! "consequence" = Some "missense_variant&splice_region_variant" →
       csq_dict ∈ [ dict (zip vep_schema ["x"; "missense_variant"; "ENSP1"; "45"]);
                    dict (zip vep_schema ["x"; "missense_variant&splice_region_variant"; "ENSP2"; "7"]) ]).
Proof.
  apply (filter_correctness variant_mixed vep_schema).
  vm_compute. reflexivity.
Defined.

(** C3, as stated, fails: under a schema without the name [consequence] the
    first, well-formed entry already raises [KeyError] at the lookup of its
    consequence type, so the variant with a short second entry does not fail
    with the zip error. *)
Lemma mismatch_rejection_counterexample :
  INFO variant_gene !! "CSQ" = Some (IStr "x|BRCA1|ENSP1|45,x|BRCA1|ENSP2") ∧
  "x|BRCA1|ENSP2" ∈ PyStr.split "," "x|BRCA1|ENSP1|45,x|BRCA1|ENSP2" ∧
  mismatched gene_schema "x|BRCA1|ENSP2" ∧
  variant_consequences variant_gene gene_schema = Raise (KeyError "consequence") ∧
  variant_consequences variant_gene gene_schema ≠ Raise MalformedConsequence.
Proof.
  split_and!.
  - vm_compute. reflexivity.
  - apply list_elem_of_In. vm_compute. tauto.
  - unfold mismatched. vm_compute. discriminate.
  - vm_compute. reflexivity.
  - vm_compute. discriminate.
Qed.

(** C3 (mismatch rejection), amended.  For every variant and schema, if some
    comma-separated entry of the variant's CSQ string has a number of
    pipe-delimited values different from the number of schema names, the
    extractor returns no records: it raises.  The exception is the zip error
    ([MalformedConsequence]) or, only under a schema without the name
    [consequence], the [KeyError] of the consequence lookup; so it is the zip
    error whenever the schema has the name [consequence]. *)
Theorem mismatch_rejection (variant : Variant) (csq_header : list string)
    (csq entry : string) :
  INFO variant !! "CSQ" = Some (IStr csq) →
  entry ∈ PyStr.split "," csq →
  mismatched csq_header entry →
  (∀ consequences, variant_consequences variant csq_header ≠ Ok consequences) ∧
  (variant_consequences variant csq_header = Raise MalformedConsequence ∨
   (("consequence" ∉ csq_header) ∧
    variant_consequences variant csq_header = Raise (KeyError "consequence"))) ∧
  ("consequence" ∈ csq_header →
   variant_consequences variant csq_header = Raise MalformedConsequence).
Proof.
  intros Hcsq Hin Hmis.
  rewrite (variant_consequences_unfold _ _ _ Hcsq).
  pose proof (consequences_loop_mismatched csq_header _ [] entry Hin Hmis) as Hloop.
  split_and!.
  - intros consequences. destruct Hloop as [-> | [_ ->]]; discriminate.
  - done.
  - intros Hkey. by destruct Hloop as [-> | [Hno _]].
Qed.

(** With the four-name schema, an entry with three values only. *)
Lemma mismatch_rejection_witness :
  (∀ consequences, variant_consequences variant_short vep_schema ≠ Ok consequences) ∧
  (variant_consequences variant_short vep_schema = Raise MalformedConsequence ∨
   (("consequence" ∉ vep_schema) ∧
    variant_consequences variant_short vep_schema = Raise (KeyError "consequence"))) ∧
  ("consequence" ∈ vep_schema →
   variant_consequences variant_short vep_schema = Raise MalformedConsequence).
Proof.
  apply (mismatch_rejection variant_short vep_schema
           "x|missense_variant|ENSP1|45,x|synonymous_variant|ENSP1"
           "x|synonymous_variant|ENSP1").
  - vm_compute. reflexivity.
  - apply list_elem_of_In. vm_compute. tauto.
  - unfold mismatched. vm_compute. discriminate.
Defined.

(** C10, as stated for every schema, fails in the same way as C3: under a
    schema without the name [consequence] the well-formed first entry raises
    [KeyError] at the consequence lookup, so the short entry behind it is
    never zipped and the variant does not abort with the zip error. *)
Lemma strict_decoding_counterexample :
  INFO variant_ensg !! "CSQ" = Some (IStr "x|ENSG1|ENSP1|45,x|ENSG1") ∧
  "x|ENSG1" ∈ PyStr.split "," "x|ENSG1|ENSP1|45,x|ENSG1" ∧
  mismatched ensg_schema "x|ENSG1" ∧
  variant_consequences variant_ensg ensg_schema = Raise (KeyError "consequence") ∧
  variant_consequences variant_ensg ensg_schema ≠ Raise MalformedConsequence.
Proof.
  split_and!.
  - vm_compute. reflexivity.
  - apply list_elem_of_In. vm_compute. tauto.
  - unfold mismatched. vm_compute. discriminate.
  - vm_compute. reflexivity.
  - vm_compute. discriminate.
Qed.

(** C10 (strict decoding precedes filtering), amended.  For every variant
    and schema, an entry the loop comes to is zipped against the schema
    before its consequence type is looked up and tested: the pass over a
    mismatched entry raises the zip error whatever the entry holds and
    whatever was collected so far.  A variant with a mismatched entry is
    therefore never decoded, and when the schema names the consequence field
    it aborts with the zip error, also when that entry is not a missense one
    and a record decoded from it would have been dropped by the filter. *)
Theorem strict_decoding_precedes_filtering (variant : Variant)
    (csq_header : list string) (csq entry : string) :
  INFO variant !! "CSQ" = Some (IStr csq) →
  entry ∈ PyStr.split "," csq →
  mismatched csq_header entry →
  (∀ rest consequences,
     consequences_loop csq_header (entry :: rest) consequences
     = Raise MalformedConsequence) ∧
  (∀ consequences, variant_consequences variant csq_header ≠ Ok consequences) ∧
  ("consequence" ∈ csq_header →
   variant_consequences variant csq_header = Raise MalformedConsequence).
Proof.
  intros Hcsq Hin Hmis. split_and!.
  - intros rest consequences. by apply consequences_loop_head_mismatched.
  - intros consequences. rewrite (variant_consequences_unfold _ _ _ Hcsq).
    by destruct (consequences_loop_mismatched csq_header _ [] entry Hin Hmis)
      as [-> | [_ ->]].
  - intros Hkey. rewrite (variant_consequences_unfold _ _ _ Hcsq).
    by destruct (consequences_loop_mismatched csq_header _ [] entry Hin Hmis)
      as [-> | [Hno _]].
Qed.

(** The short entry is a synonymous one, behind a well-formed missense
    entry. *)
Lemma strict_decoding_precedes_filtering_witness :
  (∀ rest consequences,
     consequences_loop vep_schema ("x|synonymous_variant|ENSP1" :: rest) consequences
     = Raise MalformedConsequence) ∧
  (∀ consequences, variant_consequences variant_short vep_schema ≠ Ok consequences) ∧
  ("consequence" ∈ vep_schema →
   variant_consequences variant_short vep_schema = Raise MalformedConsequence).
Proof.
  apply (strict_decoding_precedes_filtering variant_short vep_schema
           "x|missense_variant|ENSP1|45,x|synonymous_variant|ENSP1"
           "x|synonymous_variant|ENSP1").
  - vm_compute. reflexivity.
  - apply list_elem_of_In. vm_compute. tauto.
  - unfold mismatched. vm_compute. discriminate.
Defined.

(** ** Aggregator *)

Section aggregation.

Implicit Types (clinvar_dict : list (string * gset string)).
Implicit Types (pairs : list (string * string)).
Implicit Types (protein_key clinvar_key : string).
Implicit Types (m : gmap string (gset string)).

Lemma string_eqb_decide (a b : string) : String.eqb a b = bool_decide (a = b).
Proof.
  destruct (String.eqb_spec a b) as [->|Hne].
  - by rewrite bool_decide_eq_true_2.
  - by rewrite bool_decide_eq_false_2.
Qed.

(** *** One addition *)

Lemma as_mapping_add clinvar_dict protein_key clinvar_key :
  as_mapping (defaultdict_add clinvar_dict protein_key clinvar_key)
  = mapping_add (as_mapping clinvar_dict) (protein_key, clinvar_key).
Proof.
  unfold as_mapping, mapping_add. simpl.
  induction clinvar_dict as [|[key value] rest IH]; simpl.
  - by rewrite lookup_empty.
  - rewrite string_eqb_decide. case_bool_decide as Hkey; simpl.
    + subst key. by rewrite lookup_insert_eq, insert_insert_eq.
    + rewrite IH, lookup_insert_ne by done. by apply insert_insert_ne.
Qed.

Lemma defaultdict_add_keys_old clinvar_dict protein_key clinvar_key :
  protein_key ∈ clinvar_dict.*1 →
  (defaultdict_add clinvar_dict protein_key clinvar_key).*1 = clinvar_dict.*1.
Proof.
  induction clinvar_dict as [|[key value] rest IH]; intros Hin; csimpl in *.
  - by apply elem_of_nil in Hin.
  - rewrite string_eqb_decide. case_bool_decide as Hkey; [done|]. csimpl.
    apply elem_of_cons in Hin as [->|Hin]; [done|]. by rewrite IH.
Qed.

(** A new key comes after all the existing ones. *)
Lemma defaultdict_add_keys_new clinvar_dict protein_key clinvar_key :
  protein_key ∉ clinvar_dict.*1 →
  (defaultdict_add clinvar_dict protein_key clinvar_key).*1
  = clinvar_dict.*1 ++ [protein_key].
Proof.
  induction clinvar_dict as [|[key value] rest IH]; intros Hnot; csimpl in *; [done|].
  apply not_elem_of_cons in Hnot as [Hne Hnot].
  rewrite string_eqb_decide. case_bool_decide as Hkey; [by subst|].
  csimpl. by rewrite IH.
Qed.

Lemma defaultdict_add_idempotent clinvar_dict protein_key clinvar_key :
  defaultdict_add (defaultdict_add clinvar_dict protein_key clinvar_key)
    protein_key clinvar_key
  = defaultdict_add clinvar_dict protein_key clinvar_key.
Proof.
  induction clinvar_dict as [|[key value] rest IH]; simpl.
  - rewrite String.eqb_refl. f_equal. f_equal. set_solver.
  - destruct (String.eqb key protein_key) eqn:Hkey; simpl; rewrite Hkey.
    + f_equal. f_equal. set_solver.
    + by rewrite IH.
Qed.

(** *** A sequence of additions *)

Lemma as_mapping_add_all clinvar_dict pairs :
  as_mapping (add_all clinvar_dict pairs)
  = fold_left mapping_add pairs (as_mapping clinvar_dict).
Proof.
  revert clinvar_dict. induction pairs as [|[k c] pairs IH]; intros clinvar_dict; [done|].
  unfold add_all in *. simpl. by rewrite IH, as_mapping_add.
Qed.

Lemma mapping_add_comm m (p q : string * string) :
  mapping_add (mapping_add m p) q = mapping_add (mapping_add m q) p.
Proof.
  destruct p as [k1 c1], q as [k2 c2]. unfold mapping_add. simpl.
  destruct (decide (k1 = k2)) as [->|Hne].
  - rewrite !lookup_insert_eq, !insert_insert_eq. simpl. f_equal. set_solver.
  - rewrite !lookup_insert_ne by done. by apply insert_insert_ne.
Qed.

Lemma fold_mapping_add_perm pairs pairs' m :
  pairs ≡ₚ pairs' →
  fold_left mapping_add pairs m = fold_left mapping_add pairs' m.
Proof.
  intros Hperm. revert m.
  induction Hperm as [|p l l' _ IH|p q l|l l' l'' _ IH1 _ IH2]; intros m; simpl.
  - done.
  - apply IH.
  - by rewrite mapping_add_comm.
  - by rewrite IH1.
Qed.

(** The tokens under a key are those added under it. *)
Lemma fold_mapping_add_lookup pairs m protein_key (value : gset string) :
  fold_left mapping_add pairs m !! protein_key = Some value →
  ∀ clinvar_key,
    clinvar_key ∈ value ↔
    clinvar_key ∈ default ∅ (m !! protein_key) ∨ (protein_key, clinvar_key) ∈ pairs.
Proof.
  revert m. induction pairs as [|[k c] pairs IH]; intros m Hlook clinvar_key; simpl in *.
  - rewrite Hlook. simpl. rewrite elem_of_nil. tauto.
  - rewrite (IH _ Hlook), elem_of_cons. unfold mapping_add. simpl.
    destruct (decide (k = protein_key)) as [->|Hne].
    + rewrite lookup_insert_eq. simpl. rewrite elem_of_union, elem_of_singleton.
      naive_solver.
    + rewrite lookup_insert_ne by done.
      naive_solver.
Qed.

Lemma filter_not_in_app (seen keys : list string) (k : string) :
  filter (λ k', k' ∉ seen ++ [k]) keys
  = filter (λ k', k' ∉ seen) (filter (λ k', k' ≠ k) keys).
Proof.
  rewrite list_filter_filter. apply list_filter_iff. intros k'.
  rewrite not_elem_of_app, not_elem_of_cons.
  pose proof (not_elem_of_nil k'). tauto.
Qed.

Lemma filter_not_in_seen (seen keys : list string) (k : string) :
  k ∈ seen →
  filter (λ k', k' ∉ seen) (filter (λ k', k' ≠ k) keys)
  = filter (λ k', k' ∉ seen) keys.
Proof.
  intros Hin. apply list_filter_filter_l. intros k' Hnot ->. done.
Qed.

(** Keys stay where they were created; new keys follow in the order of
    their first addition. *)
Lemma add_all_keys clinvar_dict pairs :
  (add_all clinvar_dict pairs).*1
  = clinvar_dict.*1 ++ filter (λ k, k ∉ clinvar_dict.*1) (first_seen pairs.*1).
Proof.
  revert clinvar_dict. induction pairs as [|[k c] pairs IH]; intros clinvar_dict.
  - simpl. by rewrite app_nil_r.
  - unfold add_all in *. simpl. rewrite IH.
    destruct (decide (k ∈ clinvar_dict.*1)) as [Hin|Hnot].
    + rewrite defaultdict_add_keys_old by done.
      rewrite filter_cons_False by naive_solver.
      by rewrite filter_not_in_seen.
    + rewrite defaultdict_add_keys_new by done.
      rewrite filter_cons_True by done.
      rewrite filter_not_in_app. by rewrite <- app_assoc.
Qed.

Lemma first_seen_NoDup (keys : list string) : NoDup (first_seen keys).
Proof.
  induction keys as [|k keys IH]; simpl; [constructor|].
  apply NoDup_cons. split.
  - rewrite list_elem_of_filter. naive_solver.
  - by apply NoDup_filter.
Qed.

Lemma first_seen_elem_of (keys : list string) (k : string) :
  k ∈ first_seen keys ↔ k ∈ keys.
Proof.
  induction keys as [|k' keys IH]; simpl; [done|].
  rewrite !elem_of_cons, list_elem_of_filter, IH.
  destruct (decide (k = k')); naive_solver.
Qed.

Lemma add_all_empty_keys pairs : (add_all [] pairs).*1 = first_seen pairs.*1.
Proof.
  rewrite add_all_keys. csimpl.
  induction (first_seen pairs.*1) as [|k keys IH]; [done|].
  rewrite filter_cons_True by apply not_elem_of_nil. by rewrite IH.
Qed.

End aggregation.

Section finalization.

Implicit Types (clinvar_dict : list (string * gset string)).
Implicit Types (pairs : list (string * string)).
Implicit Types (lines : list json_line).

Lemma add_all_app clinvar_dict pairs pairs' :
  add_all clinvar_dict (pairs ++ pairs') = add_all (add_all clinvar_dict pairs) pairs'.
Proof. apply fold_left_app. Qed.

(** Every map the loops of [main] build is the result of a sequence of
    additions. *)
Lemma add_consequences_additions clinvar_dict clinvar_key csq_dicts clinvar_dict' :
  add_consequences clinvar_dict clinvar_key csq_dicts = Ok clinvar_dict' →
  ∃ pairs, clinvar_dict' = add_all clinvar_dict pairs.
Proof.
  revert clinvar_dict. induction csq_dicts as [|csq_dict rest IH]; intros clinvar_dict Hadd.
  - injection Hadd as <-. by exists [].
  - cbn [add_consequences] in Hadd.
    apply bind_Ok_inv in Hadd as (ensp & _ & Hadd).
    apply bind_Ok_inv in Hadd as (protein_position & _ & Hadd).
    apply IH in Hadd as [pairs ->].
    by exists ((ensp +:+ ":" +:+ protein_position, clinvar_key) :: pairs).
Qed.

Lemma variants_loop_additions header_csq variants clinvar_dict clinvar_dict' :
  variants_loop header_csq variants clinvar_dict = Ok clinvar_dict' →
  ∃ pairs, clinvar_dict' = add_all clinvar_dict pairs.
Proof.
  revert clinvar_dict. induction variants as [|variant rest IH]; intros clinvar_dict Hloop.
  - injection Hloop as <-. by exists [].
  - cbn [variants_loop] in Hloop.
    apply bind_Ok_inv in Hloop as (clinvar_allele & _ & Hloop).
    apply bind_Ok_inv in Hloop as (clinvar_stars & _ & Hloop).
    apply bind_Ok_inv in Hloop as (csq_dicts & _ & Hloop).
    apply bind_Ok_inv in Hloop as (clinvar_dict1 & Hadd & Hloop).
    apply add_consequences_additions in Hadd as [pairs1 ->].
    apply IH in Hloop as [pairs2 ->].
    exists (pairs1 ++ pairs2). by rewrite add_all_app.
Qed.

Lemma aggregate_additions (vcf_reader : VCF) clinvar_dict :
  aggregate vcf_reader = Ok clinvar_dict → ∃ pairs, clinvar_dict = add_all [] pairs.
Proof.
  unfold aggregate. intros Hagg.
  apply bind_Ok_inv in Hagg as (header_csq & _ & Hloop).
  by apply variants_loop_additions in Hloop.
Qed.

(** The lines carry the keys of the map, in the order of the map. *)
Lemma written_keys clinvar_dict lines :
  written clinvar_dict lines → newkey <$> lines = clinvar_dict.*1.
Proof.
  induction 1 as [|item line clinvar_dict lines [Hkey _] _ IH]; [done|].
  csimpl. by rewrite Hkey, IH.
Qed.

(** Some lines are always written: finalization cannot fail. *)
Lemma written_total clinvar_dict : ∃ lines, written clinvar_dict lines.
Proof.
  induction clinvar_dict as [|item clinvar_dict [lines IH]].
  - exists []. constructor.
  - exists ({| newkey := item.1;
               clinvar_alleles := PyStr.join "+" (elements item.2) |} :: lines).
    constructor; [|done]. split; [done|].
    exists (elements item.2). split; [unfold iterates; reflexivity | done].
Qed.

Lemma iterates_NoDup (value : gset string) (tokens : list string) :
  iterates value tokens → NoDup tokens.
Proof. unfold iterates. intros ->. apply NoDup_elements. Qed.

Lemma iterates_elem_of (value : gset string) (tokens : list string) (token : string) :
  iterates value tokens → token ∈ tokens ↔ token ∈ value.
Proof. unfold iterates. intros ->. apply elem_of_elements. Qed.

Lemma filter_eq_absent (tokens : list string) (token : string) :
  token ∉ tokens → filter (λ t, t = token) tokens = [].
Proof.
  induction tokens as [|t tokens IH]; intros Hnot; [done|].
  apply not_elem_of_cons in Hnot as [Hne Hnot].
  rewrite filter_cons_False by congruence. by apply IH.
Qed.

(** An enumeration without repetition holds each of its tokens once. *)
Lemma NoDup_occurs_once (tokens : list string) (token : string) :
  NoDup tokens → token ∈ tokens →
  length (filter (λ t, t = token) tokens) = 1.
Proof.
  induction 1 as [|t tokens Hnot Hnodup IH]; intros Hin.
  - by apply elem_of_nil in Hin.
  - destruct (decide (t = token)) as [->|Hne].
    + rewrite filter_cons_True by done. by rewrite filter_eq_absent.
    + rewrite filter_cons_False by done.
      apply elem_of_cons in Hin as [->|Hin]; [done | by apply IH].
Qed.

Lemma add_all_lookup pairs protein_key (value : gset string) :
  (protein_key, value) ∈ add_all [] pairs →
  ∀ clinvar_key, clinvar_key ∈ value ↔ (protein_key, clinvar_key) ∈ pairs.
Proof.
  intros Hin clinvar_key.
  apply elem_of_list_to_map_1 in Hin.
  - fold (as_mapping (add_all [] pairs)) in Hin.
    rewrite as_mapping_add_all in Hin.
    rewrite (fold_mapping_add_lookup _ _ _ _ Hin).
    unfold as_mapping. simpl. rewrite lookup_empty. simpl. set_solver.
  - rewrite add_all_empty_keys. apply first_seen_NoDup.
Qed.

End finalization.

(** C6 (idempotent insertion).  For every state of the aggregation map,
    every protein key and every clinical token, adding the token under the
    key a second time gives the same map as adding it once.  Added twice to
    the empty map, the token is the only entry of a set of size 1, not 2; and
    in every state, after the two additions, every enumeration of the set
    under the key holds the token exactly once. *)
Theorem idempotent_insertion (clinvar_dict : list (string * gset string))
    (protein_key clinvar_key : string) :
  defaultdict_add (defaultdict_add clinvar_dict protein_key clinvar_key)
    protein_key clinvar_key
  = defaultdict_add clinvar_dict protein_key clinvar_key ∧
  (∃ value,
     defaultdict_add (defaultdict_add [] protein_key clinvar_key) protein_key clinvar_key
     = [(protein_key, value)] ∧ size value = 1) ∧
  (∃ value,
     as_mapping (defaultdict_add (defaultdict_add clinvar_dict protein_key clinvar_key)
                   protein_key clinvar_key) !! protein_key = Some value ∧
     ∀ tokens, iterates value tokens →
       length (filter (λ token, token = clinvar_key) tokens) = 1).
Proof.
  split_and!.
  - apply defaultdict_add_idempotent.
  - exists {[clinvar_key]}. split; [|apply size_singleton].
    rewrite defaultdict_add_idempotent. simpl. f_equal. f_equal. set_solver.
  - rewrite defaultdict_add_idempotent, as_mapping_add. unfold mapping_add.
    rewrite lookup_insert_eq. eexists. split; [done|].
    intros tokens Htokens.
    assert (clinvar_key ∈ tokens) as Hin.
    { apply (iterates_elem_of _ _ _ Htokens). set_solver. }
    apply NoDup_occurs_once; [by apply (iterates_NoDup _ _ Htokens) | done].
Qed.

(** C7 (order-independence of aggregation).  For every sequence of
    (ProteinKey, ClinicalKey) pairs and every permutation of it, folding
    either sequence into the empty map gives the same mapping from protein
    key to token set (the order in which the keys were created, and the order
    in which a set is later joined, are left aside). *)
Theorem order_independence (pairs pairs' : list (string * string)) :
  pairs ≡ₚ pairs' →
  as_mapping (add_all [] pairs) = as_mapping (add_all [] pairs').
Proof.
  intros Hperm. rewrite !as_mapping_add_all. by apply fold_mapping_add_perm.
Qed.

Lemma order_independence_witness :
  as_mapping (add_all [] pairs_forward) = as_mapping (add_all [] pairs_shuffled).
Proof.
  apply (order_independence pairs_forward pairs_shuffled).
  unfold pairs_forward, pairs_shuffled.
  eapply perm_trans; [apply perm_swap|]. apply perm_skip. apply perm_swap.
Defined.

(** The maps themselves differ in the order of their keys, which is the
    order of creation. *)
Example creation_order_differs :
  (add_all [] pairs_forward).*1 = ["ENSP1:45"; "ENSP2:9"] ∧
  (add_all [] pairs_shuffled).*1 = ["ENSP2:9"; "ENSP1:45"].
Proof. split; vm_compute; reflexivity. Qed.

(** C9 (finalization order and join).  For the map built by any sequence of
    additions, lines are always written, and whatever lines are written:
    they come one per protein key, in the order in which the keys were first
    created by the additions, and the value of each line is the ["+"]-join of
    an enumeration, without repetition and in some order, of exactly the
    tokens added under its key. *)
Theorem finalization_order_and_join (pairs : list (string * string)) :
  (∃ lines, written (add_all [] pairs) lines) ∧
  ∀ lines, written (add_all [] pairs) lines →
    newkey <$> lines = first_seen pairs.*1 ∧
    Forall (λ line,
      ∃ tokens,
        NoDup tokens ∧
        (∀ clinvar_key, clinvar_key ∈ tokens ↔ (newkey line, clinvar_key) ∈ pairs) ∧
        clinvar_alleles line = PyStr.join "+" tokens) lines.
Proof.
  split; [apply written_total|]. intros lines Hwritten. split.
  - by rewrite (written_keys _ _ Hwritten), add_all_empty_keys.
  - apply Forall_forall. intros line Hline.
    apply list_elem_of_lookup in Hline as [i Hline].
    destruct (Forall2_lookup_r _ _ _ _ _ Hwritten Hline)
      as ([protein_key value] & Hitem & Hkey & tokens & Htokens & Hjoin).
    simpl in *. exists tokens. split_and!.
    + by apply (iterates_NoDup value).
    + intros clinvar_key. rewrite (iterates_elem_of _ _ _ Htokens), Hkey.
      apply add_all_lookup. apply list_elem_of_lookup. eauto.
    + done.
Qed.

Lemma finalization_order_and_join_witness :
  newkey <$> [ {| newkey := "ENSP1:45"; clinvar_alleles := "10:2+11:1" |};
               {| newkey := "ENSP2:9"; clinvar_alleles := "12:0" |} ]
  = first_seen pairs_forward.*1 ∧
  Forall (λ line,
    ∃ tokens,
      NoDup tokens ∧
      (∀ clinvar_key, clinvar_key ∈ tokens ↔ (newkey line, clinvar_key) ∈ pairs_forward) ∧
      clinvar_alleles line = PyStr.join "+" tokens)
    [ {| newkey := "ENSP1:45"; clinvar_alleles := "10:2+11:1" |};
      {| newkey := "ENSP2:9"; clinvar_alleles := "12:0" |} ].
Proof.
  apply (proj2 (finalization_order_and_join pairs_forward)).
  repeat constructor.
  - exists ["10:2"; "11:1"]. split; [|reflexivity].
    unfold iterates. vm_compute. apply perm_swap.
  - exists ["12:0"]. split; [|reflexivity].
    unfold iterates. vm_compute. apply perm_skip, perm_nil.
Defined.

Section scenario.

Lemma scenario_aggregation :
  variants_loop vep_schema [variant_A; variant_B] [] = Ok final_map.
Proof. vm_compute. reflexivity. Qed.

Lemma scenario_written (lines : list json_line) :
  written final_map lines ↔ lines = [line_forward] ∨ lines = [line_backward].
Proof.
  assert (elements ({["10:2"; "11:1"]} : gset string) ≡ₚ ["10:2"; "11:1"]) as Helems.
  { vm_compute. first [reflexivity | apply perm_swap]. }
  unfold written, final_map. split.
  - intros Hwritten.
    apply Forall2_cons_inv_l in Hwritten as (line & rest & Hline & Hrest & ->).
    apply Forall2_nil_inv_l in Hrest as ->.
    destruct Hline as (Hkey & tokens & Htokens & Hjoin).
    unfold iterates in Htokens. simpl in Hkey, Htokens, Hjoin.
    rewrite Helems in Htokens. apply Permutation_sym in Htokens.
    destruct line as [key alleles]. simpl in *. subst key.
    apply Permutation_length_2_inv in Htokens as [-> | ->]; subst alleles;
      [by left | by right].
  - intros [-> | ->]; (constructor; [|constructor]); (split; [done|]).
    + exists ["10:2"; "11:1"]. split; [|done]. unfold iterates. by rewrite Helems.
    + exists ["11:1"; "10:2"]. split; [|done]. unfold iterates. rewrite Helems.
      apply perm_swap.
Qed.

End scenario.

(** C1 (end-to-end scenario).  With the schema [allele; consequence; ensp;
    protein_position] and the two variants A (allele 10, two stars, one
    missense entry at ENSP1:45) and B (allele 11, one star, a missense entry
    at ENSP1:45 and a stop-gained entry at ENSP2:9), the aggregation ends
    with exactly one entry, keyed [ENSP1:45], holding the tokens [10:2] and
    [11:1]; the lines written are that one entry with the two tokens joined
    by ["+"] in one order or the other; there is no entry for [ENSP2:9].
    The same holds for the whole run on a file whose header carries the CSQ
    element of the specification. *)
Theorem end_to_end_scenario :
  variants_loop vep_schema [variant_A; variant_B] []
    = Ok [("ENSP1:45", {["10:2"; "11:1"]})] ∧
  (∀ lines,
     written [("ENSP1:45", {["10:2"; "11:1"]})] lines ↔
     lines = [ {| newkey := "ENSP1:45"; clinvar_alleles := "10:2+11:1" |} ] ∨
     lines = [ {| newkey := "ENSP1:45"; clinvar_alleles := "11:1+10:2" |} ]) ∧
  as_mapping [("ENSP1:45", {["10:2"; "11:1"]})] !! "ENSP2:9" = None ∧
  (∀ lines,
     main {| header_iter := [csq_element]; records := [variant_A; variant_B] |} lines ↔
     lines = [ {| newkey := "ENSP1:45"; clinvar_alleles := "10:2+11:1" |} ] ∨
     lines = [ {| newkey := "ENSP1:45"; clinvar_alleles := "11:1+10:2" |} ]).
Proof.
  split_and!.
  - apply scenario_aggregation.
  - apply scenario_written.
  - vm_compute. reflexivity.
  - intros lines. rewrite <- scenario_written.
    unfold main, aggregate. cbn [header_iter records].
    assert (pull_vep_from_header [csq_element] = Ok vep_schema) as -> by reflexivity.
    rewrite bind_Ok, scenario_aggregation. split.
    + by intros (clinvar_dict & [= <-] & Hwritten).
    + intros Hwritten. eauto.
Qed.


(** * Further properties of the aggregation *)

Section contents.

Implicit Types (clinvar_dict : list (string * gset string)).
Implicit Types (protein_key clinvar_key : string).

Lemma holds_nil protein_key clinvar_key : ¬ holds [] protein_key clinvar_key.
Proof. intros (value & Hlook & _). unfold as_mapping in Hlook. simpl in Hlook. by rewrite lookup_empty in Hlook. Qed.

Lemma holds_add clinvar_dict protein_key clinvar_key k c :
  holds (defaultdict_add clinvar_dict protein_key clinvar_key) k c ↔
  holds clinvar_dict k c ∨ (k = protein_key ∧ c = clinvar_key).
Proof.
  unfold holds. rewrite as_mapping_add. unfold mapping_add. simpl.
  destruct (decide (protein_key = k)) as [->|Hne].
  - rewrite lookup_insert_eq. split.
    + intros (value & [= <-] & Hin). apply elem_of_union in Hin as [Hin|Hin].
      * left. destruct (as_mapping clinvar_dict !! k) as [old|]; simpl in Hin; [eauto|].
        by apply not_elem_of_empty in Hin.
      * right. by apply elem_of_singleton in Hin.
    + intros [(value & Hlook & Hin) | [_ ->]]; eexists; (split; [done|]).
      * rewrite Hlook. simpl. apply elem_of_union. by left.
      * apply elem_of_union. right. by apply elem_of_singleton.
  - rewrite lookup_insert_ne by done. split; [by left|].
    intros [?|[-> _]]; done.
Qed.

Lemma holds_add_consequences clinvar_dict clinvar_key csq_dicts clinvar_dict' k c :
  add_consequences clinvar_dict clinvar_key csq_dicts = Ok clinvar_dict' →
  holds clinvar_dict' k c ↔
  holds clinvar_dict k c ∨
  (c = clinvar_key ∧
   ∃ csq_dict ensp protein_position,
     csq_dict ∈ csq_dicts ∧ csq_dict !! "ensp" = Some ensp ∧
     csq_dict !! "protein_position" = Some protein_position ∧
     k = ensp +:+ ":" +:+ protein_position).
Proof.
  revert clinvar_dict. induction csq_dicts as [|csq_dict rest IH]; intros clinvar_dict Hadd.
  - injection Hadd as <-. split; [by left|].
    intros [?|(_ & ? & ? & ? & Hin & _)]; [done|]. by apply elem_of_nil in Hin.
  - cbn [add_consequences] in Hadd.
    apply bind_Ok_inv in Hadd as (ensp & Hensp & Hadd).
    apply bind_Ok_inv in Hadd as (protein_position & Hpos & Hadd).
    apply getitem_Ok in Hensp. apply getitem_Ok in Hpos.
    rewrite (IH _ Hadd), holds_add. split.
    + intros [[?|[-> ->]]|(-> & d & e & q & Hin & ? & ? & ->)].
      * by left.
      * right. split; [done|]. exists csq_dict, ensp, protein_position.
        split_and!; try done. apply elem_of_cons. by left.
      * right. split; [done|]. exists d, e, q.
        split_and!; try done. apply elem_of_cons. by right.
    + intros [?|(-> & d & e & q & Hin & Hd & Hq & ->)]; [by left; left|].
      apply elem_of_cons in Hin as [->|Hin].
      * left. right. split; [|done]. congruence.
      * right. split; [done|]. by exists d, e, q.
Qed.

Lemma holds_variants_loop header_csq variants clinvar_dict clinvar_dict' k c :
  variants_loop header_csq variants clinvar_dict = Ok clinvar_dict' →
  holds clinvar_dict' k c ↔
  holds clinvar_dict k c ∨
  ∃ variant, variant ∈ variants ∧ contributes header_csq variant k c.
Proof.
  revert clinvar_dict. induction variants as [|variant rest IH]; intros clinvar_dict Hloop.
  - injection Hloop as <-. split; [by left|].
    intros [?|(? & Hin & _)]; [done|]. by apply elem_of_nil in Hin.
  - cbn [variants_loop] in Hloop.
    apply bind_Ok_inv in Hloop as (clinvar_allele & Hallele & Hloop).
    apply bind_Ok_inv in Hloop as (clinvar_stars & Hstars & Hloop).
    apply bind_Ok_inv in Hloop as (csq_dicts & Hcsq & Hloop).
    apply bind_Ok_inv in Hloop as (clinvar_dict1 & Hadd & Hloop).
    apply getitem_Ok in Hallele. apply getitem_Ok in Hstars.
    rewrite (IH _ Hloop), (holds_add_consequences _ _ _ _ _ _ Hadd). split.
    + intros [[?|(-> & d & e & q & Hin & Hd & Hq & ->)]|(v & Hin & Hv)].
      * by left.
      * right. exists variant. split; [apply elem_of_cons; by left|].
        by exists clinvar_allele, clinvar_stars, csq_dicts, d, e, q.
      * right. exists v. split; [apply elem_of_cons; by right | done].
    + intros [?|(v & Hin & Hv)]; [by left; left|].
      apply elem_of_cons in Hin as [->|Hin]; [|right; eauto].
      left. right.
      destruct Hv as (a & st & ds & d & e & q & Ha & Hst & Hds & Hin & Hd & Hq & -> & ->).
      assert (a = clinvar_allele) as -> by congruence.
      assert (st = clinvar_stars) as -> by congruence.
      assert (ds = csq_dicts) as -> by congruence.
      split; [done|]. by exists d, e, q.
Qed.

Lemma tidy_nil : tidy [].
Proof. split; constructor. Qed.

Lemma defaultdict_add_nonempty clinvar_dict protein_key clinvar_key :
  Forall (λ item, item.2 ≠ ∅) clinvar_dict →
  Forall (λ item, item.2 ≠ ∅) (defaultdict_add clinvar_dict protein_key clinvar_key).
Proof.
  induction 1 as [|[key value] rest Hhead Hrest IH]; simpl.
  - constructor; [|constructor]. simpl. set_solver.
  - destruct (String.eqb key protein_key); constructor; try done.
    simpl. set_solver.
Qed.

Lemma tidy_add clinvar_dict protein_key clinvar_key :
  tidy clinvar_dict → tidy (defaultdict_add clinvar_dict protein_key clinvar_key).
Proof.
  intros [Hkeys Hsets]. split; [|by apply defaultdict_add_nonempty].
  destruct (decide (protein_key ∈ clinvar_dict.*1)) as [Hin|Hnot].
  - by rewrite defaultdict_add_keys_old.
  - rewrite defaultdict_add_keys_new by done.
    apply NoDup_app. split_and!; [done | | apply NoDup_singleton].
    intros k Hk Hk'. apply list_elem_of_singleton in Hk'. by subst.
Qed.

Lemma tidy_add_all clinvar_dict (pairs : list (string * string)) :
  tidy clinvar_dict → tidy (add_all clinvar_dict pairs).
Proof.
  revert clinvar_dict. induction pairs as [|[k c] pairs IH]; intros clinvar_dict Htidy; [done|].
  unfold add_all in *. simpl. apply IH. by apply tidy_add.
Qed.

Lemma tidy_variants_loop header_csq variants clinvar_dict clinvar_dict' :
  variants_loop header_csq variants clinvar_dict = Ok clinvar_dict' →
  tidy clinvar_dict → tidy clinvar_dict'.
Proof.
  intros Hloop Htidy. apply variants_loop_additions in Hloop as [pairs ->].
  by apply tidy_add_all.
Qed.

(** A map without empty sets that has an entry holds a token. *)
Lemma tidy_holds clinvar_dict :
  tidy clinvar_dict → clinvar_dict ≠ [] → ∃ k c, holds clinvar_dict k c.
Proof.
  intros [_ Hsets] Hne. destruct clinvar_dict as [|[key value] rest]; [done|].
  apply Forall_cons in Hsets as [Hvalue _]. simpl in Hvalue.
  apply set_choose_L in Hvalue as [c Hc].
  exists key, c, value. split; [|done].
  unfold as_mapping. simpl. by rewrite lookup_insert_eq.
Qed.

Lemma add_consequences_Ok clinvar_dict clinvar_key csq_dicts :
  (∃ clinvar_dict', add_consequences clinvar_dict clinvar_key csq_dicts = Ok clinvar_dict') ↔
  Forall (λ csq_dict, is_Some (csq_dict !! "ensp") ∧
                      is_Some (csq_dict !! "protein_position")) csq_dicts.
Proof.
  revert clinvar_dict. induction csq_dicts as [|csq_dict rest IH]; intros clinvar_dict.
  - split; [constructor | by eexists].
  - cbn [add_consequences]. rewrite Forall_cons. split.
    + intros [clinvar_dict' Hadd].
      apply bind_Ok_inv in Hadd as (ensp & Hensp & Hadd).
      apply bind_Ok_inv in Hadd as (protein_position & Hpos & Hadd).
      apply getitem_Ok in Hensp. apply getitem_Ok in Hpos.
      split; [eauto|]. apply (IH (defaultdict_add clinvar_dict
        (ensp +:+ ":" +:+ protein_position) clinvar_key)). eauto.
    + intros [[[ensp Hensp] [protein_position Hpos]] Hrest].
      unfold getitem. rewrite Hensp, Hpos, !bind_Ok. by apply IH.
Qed.

Lemma variants_loop_Ok header_csq variants clinvar_dict :
  (∃ clinvar_dict', variants_loop header_csq variants clinvar_dict = Ok clinvar_dict') ↔
  Forall (usable header_csq) variants.
Proof.
  revert clinvar_dict. induction variants as [|variant rest IH]; intros clinvar_dict.
  - split; [constructor | by eexists].
  - cbn [variants_loop]. rewrite Forall_cons. unfold usable at 1. split.
    + intros [clinvar_dict' Hloop].
      apply bind_Ok_inv in Hloop as (clinvar_allele & Hallele & Hloop).
      apply bind_Ok_inv in Hloop as (clinvar_stars & Hstars & Hloop).
      apply bind_Ok_inv in Hloop as (csq_dicts & Hcsq & Hloop).
      apply bind_Ok_inv in Hloop as (clinvar_dict1 & Hadd & Hloop).
      apply getitem_Ok in Hallele. apply getitem_Ok in Hstars.
      split_and!; [eauto | eauto | | apply (IH clinvar_dict1); eauto].
      exists csq_dicts. split; [done|]. apply (add_consequences_Ok clinvar_dict
        (format clinvar_allele +:+ ":" +:+ format clinvar_stars)). eauto.
    + intros [([clinvar_allele Hallele] & [clinvar_stars Hstars] & csq_dicts & Hcsq & Hkeys) Hrest].
      unfold getitem. rewrite Hallele, Hstars, !bind_Ok, Hcsq, bind_Ok.
      apply (add_consequences_Ok clinvar_dict
        (format clinvar_allele +:+ ":" +:+ format clinvar_stars)) in Hkeys
        as [clinvar_dict1 ->].
      rewrite bind_Ok. by apply IH.
Qed.

Lemma written_nil clinvar_dict (lines : list json_line) :
  written clinvar_dict lines → lines = [] ↔ clinvar_dict = [].
Proof.
  intros Hwritten. apply Forall2_length in Hwritten.
  destruct clinvar_dict, lines; simpl in *; split; intros; congruence.
Qed.

End contents.

(** X1 (what the aggregation holds).  When the loops of [main] end without
    an exception, a token is stored under a protein key exactly when some
    variant of the input contributes it: the token is the variant's
    [allele_id:gold_stars] and the key is the [ensp:protein_position] of one
    of the variant's retained (missense) consequences.  Nothing else is
    stored and nothing contributed is lost. *)
Theorem aggregation_contents (header_csq : list string) (variants : list Variant)
    (clinvar_dict : list (string * gset string)) (protein_key clinvar_key : string) :
  variants_loop header_csq variants [] = Ok clinvar_dict →
  holds clinvar_dict protein_key clinvar_key ↔
  ∃ variant, variant ∈ variants ∧
             contributes header_csq variant protein_key clinvar_key.
Proof.
  intros Hloop. rewrite (holds_variants_loop _ _ _ _ _ _ Hloop).
  split; [intros [Hnil|?]; [by apply holds_nil in Hnil | done] | by right].
Qed.

Lemma aggregation_contents_witness :
  holds final_map "ENSP1:45" "11:1" ↔
  ∃ variant, variant ∈ [variant_A; variant_B] ∧
             contributes vep_schema variant "ENSP1:45" "11:1".
Proof.
  apply (aggregation_contents vep_schema [variant_A; variant_B] final_map).
  vm_compute. reflexivity.
Defined.




(** X3 (nothing is removed or moved).  Going through further variants
    leaves every key of the map at its place, new keys coming behind, and
    keeps every token already stored. *)
Theorem loop_keeps_entries (header_csq : list string) (variants : list Variant)
    (clinvar_dict clinvar_dict' : list (string * gset string)) :
  variants_loop header_csq variants clinvar_dict = Ok clinvar_dict' →
  clinvar_dict.*1 `prefix_of` clinvar_dict'.*1 ∧
  ∀ protein_key clinvar_key,
    holds clinvar_dict protein_key clinvar_key →
    holds clinvar_dict' protein_key clinvar_key.
Proof.
  intros Hloop. split.
  - apply variants_loop_additions in Hloop as [pairs ->].
    rewrite add_all_keys. by eexists.
  - intros protein_key clinvar_key Hholds.
    apply (holds_variants_loop _ _ _ _ _ _ Hloop). by left.
Qed.

Lemma loop_keeps_entries_witness :
  earlier_map.*1 `prefix_of`
    [("ENSP9:1", {["7:1"]} : gset string); ("ENSP1:45", {["10:2"]})].*1 ∧
  ∀ protein_key clinvar_key,
    holds earlier_map protein_key clinvar_key →
    holds [("ENSP9:1", {["7:1"]} : gset string); ("ENSP1:45", {["10:2"]})]
      protein_key clinvar_key.
Proof.
  apply (loop_keeps_entries vep_schema [variant_A] earlier_map).
  vm_compute. reflexivity.
Defined.

(** X4 (the run succeeds as a whole or writes nothing).  [main] writes
    lines exactly when the header yields a schema and every variant of the
    file is usable under it: it has [allele_id], [gold_stars] and a CSQ string
    that the extractor decodes, and each retained record has the fields
    [ensp] and [protein_position].  One variant that is not usable, wherever
    it stands in the file, leaves the run without any line. *)
Theorem run_succeeds_iff (vcf_reader : VCF) :
  (∃ lines, main vcf_reader lines) ↔
  ∃ header_csq,
    pull_vep_from_header (header_iter vcf_reader) = Ok header_csq ∧
    Forall (usable header_csq) (records vcf_reader).
Proof.
  unfold main, aggregate. split.
  - intros (lines & clinvar_dict & Hagg & _).
    apply bind_Ok_inv in Hagg as (header_csq & Hpull & Hloop).
    exists header_csq. split; [done|].
    apply (variants_loop_Ok header_csq _ []). eauto.
  - intros (header_csq & Hpull & Husable).
    apply (variants_loop_Ok header_csq _ []) in Husable as [clinvar_dict Hloop].
    destruct (written_total clinvar_dict) as [lines Hwritten].
    exists lines, clinvar_dict. by rewrite Hpull, bind_Ok.
Qed.

(** X5 (empty output).  A run of [main] writes no line at all exactly when
    no variant of the file has a retained (missense) consequence. *)
Theorem empty_output (vcf_reader : VCF) (header_csq : list string)
    (lines : list json_line) :
  pull_vep_from_header (header_iter vcf_reader) = Ok header_csq →
  main vcf_reader lines →
  lines = [] ↔
  Forall (λ variant, variant_consequences variant header_csq = Ok [])
    (records vcf_reader).
Proof.
  intros Hpull (clinvar_dict & Hagg & Hwritten).
  unfold aggregate in Hagg. rewrite Hpull, bind_Ok in Hagg.
  rewrite (written_nil _ _ Hwritten).
  pose proof (tidy_variants_loop _ _ _ _ Hagg tidy_nil) as Htidy.
  assert (Forall (usable header_csq) (records vcf_reader)) as Husable.
  { apply (variants_loop_Ok header_csq _ []). eauto. }
  split.
  - intros ->. apply Forall_forall. intros variant Hin.
    rewrite Forall_forall in Husable. specialize (Husable _ Hin).
    destruct Husable as ([a Ha] & [st Hst] & csq_dicts & Hcsq & Hkeys).
    destruct csq_dicts as [|csq_dict rest]; [done|]. exfalso.
    apply Forall_cons in Hkeys as [[[ensp Hensp] [pos Hpos]] _].
    apply (holds_nil (ensp +:+ ":" +:+ pos) (format a +:+ ":" +:+ format st)).
    apply (holds_variants_loop _ _ _ _ _ _ Hagg). right.
    exists variant. split; [done|].
    exists a, st, (csq_dict :: rest), csq_dict, ensp, pos.
    split_and!; try done. apply elem_of_cons. by left.
  - intros Hnone. destruct clinvar_dict as [|item rest]; [done|]. exfalso.
    destruct (tidy_holds _ Htidy) as (k & c & Hholds); [done|].
    apply (holds_variants_loop _ _ _ _ _ _ Hagg) in Hholds
      as [Hnil|Hholds]; [by apply holds_nil in Hnil|].
    destruct Hholds as (variant & Hin & _ & _ & csq_dicts & csq_dict & _ & _ & _ & _ & Hcsq & Hd & _).
    rewrite Forall_forall in Hnone. specialize (Hnone _ Hin).
    rewrite Hnone in Hcsq. injection Hcsq as <-. by apply elem_of_nil in Hd.
Qed.

Lemma empty_output_witness :
  ([] : list json_line) = [] ↔
  Forall (λ variant, variant_consequences variant vep_schema = Ok [])
    (records silent_vcf).
Proof.
  apply (empty_output silent_vcf vep_schema []).
  - vm_compute. reflexivity.
  - exists []. split; [vm_compute; reflexivity | constructor].
Defined.

(** * Further properties of the string methods *)

Section one_character_separator.

Variable c : ascii.

Lemma app_cons (a : ascii) (s t : string) : String a s +:+ t = String a (s +:+ t).
Proof. reflexivity. Qed.

Lemma app_empty_l (s : string) : "" +:+ s = s.
Proof. reflexivity. Qed.

Lemma app_empty_r (s : string) : s +:+ "" = s.
Proof. induction s as [|a s IH]; [done|]. by rewrite app_cons, IH. Qed.

Lemma app_assoc_string (s t u : string) : (s +:+ t) +:+ u = s +:+ (t +:+ u).
Proof. induction s as [|a s IH]; [done|]. by rewrite !app_cons, IH. Qed.

Lemma char_in_app (a : ascii) (s t : string) :
  PyStr.char_in a (s +:+ t) = PyStr.char_in a s || PyStr.char_in a t.
Proof.
  induction s as [|b s IH]; [done|].
  rewrite app_cons. simpl. by rewrite IH, orb_assoc.
Qed.

Lemma split_from_char_cons (cur : string) (x : ascii) (s : string) :
  PyStr.split_from (String c "") 0 cur (String x s)
  = if Ascii.eqb c x
    then cur :: PyStr.split_from (String c "") 0 "" s
    else PyStr.split_from (String c "") 0 (cur +:+ String x "") s.
Proof. simpl. rewrite andb_true_r. by destruct (Ascii.eqb c x). Qed.

(** A piece without the separator is read through. *)
Lemma split_from_piece (cur piece rest : string) :
  PyStr.char_in c piece = false →
  PyStr.split_from (String c "") 0 cur (piece +:+ rest)
  = PyStr.split_from (String c "") 0 (cur +:+ piece) rest.
Proof.
  revert cur. induction piece as [|x piece IH]; intros cur Hfree.
  - by rewrite app_empty_r.
  - simpl in Hfree. apply orb_false_iff in Hfree as [Hx Hfree].
    rewrite app_cons, split_from_char_cons, Hx, IH by done.
    by rewrite app_assoc_string.
Qed.

Lemma join_cons (x : string) (parts : list string) :
  parts ≠ [] → PyStr.join (String c "") (x :: parts) = x +:+ (String c "") +:+ PyStr.join (String c "") parts.
Proof. by destruct parts. Qed.

(** [sep.join(parts).split(sep)] gives the parts back. *)
Lemma split_join (parts : list string) :
  parts ≠ [] → Forall (λ piece, PyStr.char_in c piece = false) parts →
  PyStr.split (String c "") (PyStr.join (String c "") parts) = parts.
Proof.
  intros Hne Hfree. unfold PyStr.split.
  induction Hfree as [|piece parts Hpiece Hparts IH]; [done|].
  destruct parts as [|next parts].
  - simpl. rewrite <- (app_empty_r piece) at 1.
    rewrite split_from_piece by done. by rewrite app_empty_l.
  - rewrite join_cons by done. rewrite split_from_piece by done.
    rewrite app_cons, split_from_char_cons, Ascii.eqb_refl.
    rewrite !app_empty_l. by rewrite IH.
Qed.

(** [sep.join(s.split(sep))] gives the string back. *)
Lemma join_split_from (cur s : string) :
  PyStr.join (String c "") (PyStr.split_from (String c "") 0 cur s) = cur +:+ s.
Proof.
  revert cur. induction s as [|x s IH]; intros cur.
  - simpl. by rewrite app_empty_r.
  - rewrite split_from_char_cons. destruct (Ascii.eqb c x) eqn:Hx.
    + apply Ascii.eqb_eq in Hx as <-.
      rewrite join_cons by apply split_from_not_nil. by rewrite IH.
    + rewrite IH. by rewrite app_assoc_string.
Qed.


Lemma char_in_join (a : ascii) (parts : list string) :
  a ≠ c → Forall (λ piece, PyStr.char_in a piece = false) parts →
  PyStr.char_in a (PyStr.join (String c "") parts) = false.
Proof.
  intros Hne. induction 1 as [|piece parts Hpiece Hparts IH]; [done|].
  destruct parts as [|next parts]; [done|].
  rewrite join_cons by done. rewrite !char_in_app, Hpiece, IH. simpl.
  rewrite !orb_false_r. by apply Ascii.eqb_neq.
Qed.

End one_character_separator.

(** * Further properties of the consequence extractor *)

Section extractor_outcomes.

Implicit Types (csq_header entries : list string) (csq : string).
Implicit Types (csq_dict : gmap string string).

Lemma decode_Ok_matched csq_header csq csq_dict :
  decode csq_header csq = Ok csq_dict →
  ¬ mismatched csq_header csq ∧
  csq_dict = dict (zip csq_header (PyStr.split "|" csq)).
Proof.
  intros Hdec. destruct (mismatched_dec csq_header csq) as [Hmis|Hok].
  - rewrite decode_mismatched in Hdec by done. discriminate.
  - rewrite decode_matched in Hdec by done. by injection Hdec as <-.
Qed.

(** The names of a decoded record are the names of the schema. *)
Lemma decode_fields csq_header csq csq_dict name :
  decode csq_header csq = Ok csq_dict →
  is_Some (csq_dict !! name) ↔ name ∈ csq_header.
Proof.
  intros Hdec. apply decode_Ok_matched in Hdec as [Hok ->].
  unfold mismatched in Hok. split.
  - intros Hsome. destruct (decide (name ∈ csq_header)) as [|Hnot]; [done|].
    rewrite dict_key_absent in Hsome by done. by destruct Hsome.
  - intros Hin. apply dict_key_present; [lia | done].
Qed.

(** The pairs of a zip around a position of the first list. *)
Lemma zip_around (before after : list string) (name value : string)
    (values : list string) :
  values !! length before = Some value →
  ∃ front back,
    zip (before ++ name :: after) values = front ++ (name, value) :: back ∧
    ∀ key, key ∈ back.*1 → key ∈ after.
Proof.
  revert values. induction before as [|b before IH]; intros values Hvalue.
  - destruct values as [|v values]; [done|]. injection Hvalue as ->.
    exists [], (zip after values). split; [done|].
    intros key Hkey. apply list_elem_of_fmap in Hkey as ([k v] & -> & Hin).
    by apply elem_of_zip_l in Hin.
  - destruct values as [|v values]; [done|]. simpl in Hvalue.
    destruct (IH _ Hvalue) as (front & back & Hzip & Hback).
    exists ((b, v) :: front), back. split; [|done].
    change (zip ((b :: before) ++ name :: after) (v :: values))
      with ((b, v) :: zip (before ++ name :: after) values).
    by rewrite Hzip.
Qed.

End extractor_outcomes.

(** X6 (when the extractor returns).  [variant_consequences] returns a list,
    rather than raising, exactly when the variant has a CSQ string, the
    schema has the name [consequence], and every comma-separated entry of the
    string has as many pipe-delimited values as the schema has names. *)
Theorem extractor_succeeds_iff (variant : Variant) (csq_header : list string) :
  (∃ consequences, variant_consequences variant csq_header = Ok consequences) ↔
  ∃ csq,
    INFO variant !! "CSQ" = Some (IStr csq) ∧
    "consequence" ∈ csq_header ∧
    ∀ entry, entry ∈ PyStr.split "," csq → ¬ mismatched csq_header entry.
Proof.
  split.
  - intros [consequences Hres].
    destruct (variant_consequences_Ok_inv _ _ _ Hres) as [csq Hcsq].
    rewrite (variant_consequences_unfold _ _ _ Hcsq) in Hres.
    apply consequences_loop_Ok in Hres as (records & Hrecs & Hall & _).
    exists csq. split_and!; [done | |].
    + destruct (PyStr.split "," csq) as [|entry entries] eqn:Hsplit;
        [by apply split_not_nil in Hsplit|].
      apply Forall2_cons_inv_l in Hrecs as (csq_dict & rest & Hdec & _ & ->).
      apply Forall_cons in Hall as [Hty _].
      by apply (decode_fields _ _ _ _ Hdec).
    + intros entry Hin. apply list_elem_of_lookup in Hin as [i Hin].
      destruct (Forall2_lookup_l _ _ _ _ _ Hrecs Hin) as (csq_dict & _ & Hdec).
      by apply decode_Ok_matched in Hdec as [Hok _].
  - intros (csq & Hcsq & Hkey & Hmatched).
    rewrite (variant_consequences_unfold _ _ _ Hcsq).
    eexists. apply consequences_loop_Ok.
    exists ((λ entry, dict (zip csq_header (PyStr.split "|" entry)))
            <$> PyStr.split "," csq).
    split_and!; [| |done].
    + apply Forall2_fmap_r, Forall_Forall2_diag, Forall_forall.
      intros entry Hin. by apply decode_matched, Hmatched.
    + apply Forall_fmap, Forall_forall. intros entry Hin. simpl.
      apply dict_key_present; [|done].
      specialize (Hmatched _ Hin). unfold mismatched in Hmatched. lia.
Qed.

(** X7 (fields of the returned records).  Every record the extractor
    returns has a value for a name exactly when the name is in the schema;
    so a later lookup of [ensp] or [protein_position] succeeds on all records
    or on none, according to the schema alone. *)
Theorem records_have_schema_fields (variant : Variant) (csq_header : list string)
    (consequences : list (gmap string string)) (csq_dict : gmap string string)
    (name : string) :
  variant_consequences variant csq_header = Ok consequences →
  csq_dict ∈ consequences →
  is_Some (csq_dict !! name) ↔ name ∈ csq_header.
Proof.
  intros Hres Hin.
  destruct (variant_consequences_Ok_inv _ _ _ Hres) as [csq Hcsq].
  rewrite (variant_consequences_unfold _ _ _ Hcsq) in Hres.
  apply consequences_loop_Ok in Hres as (records & Hrecs & _ & ->).
  simpl in Hin. apply list_elem_of_In, filter_In in Hin as [Hin _].
  apply list_elem_of_In, list_elem_of_lookup in Hin as [i Hin].
  destruct (Forall2_lookup_r _ _ _ _ _ Hrecs Hin) as (entry & _ & Hdec).
  by apply (decode_fields _ _ _ _ Hdec).
Qed.

Lemma records_have_schema_fields_witness :
  is_Some (dict (zip vep_schema ["x"; "missense_variant"; "ENSP1"; "45"]) !! "ensp")
  ↔ "ensp" ∈ vep_schema.
Proof.
  apply (records_have_schema_fields variant_A vep_schema
           [dict (zip vep_schema ["x"; "missense_variant"; "ENSP1"; "45"])]).
  - vm_compute. reflexivity.
  - apply elem_of_cons. by left.
Defined.

(** X8 (a name that occurs twice in the schema).  A decoded record stores
    under a name the value at the last position at which the schema has the
    name: [dict] keeps the later of two pairs with the same key. *)
Theorem decode_last_position (before after : list string) (name csq : string)
    (csq_dict : gmap string string) :
  decode (before ++ name :: after) csq = Ok csq_dict →
  name ∉ after →
  csq_dict !! name = PyStr.split "|" csq !! length before.
Proof.
  intros Hdec Hlast. apply decode_Ok_matched in Hdec as [Hok ->].
  unfold mismatched in Hok. rewrite length_app in Hok. simpl in Hok.
  destruct (PyStr.split "|" csq !! length before) as [value|] eqn:Hvalue.
  - destruct (zip_around before after name value _ Hvalue)
      as (front & back & Hzip & Hback).
    unfold dict. rewrite Hzip, fold_left_app. simpl.
    rewrite dict_fold_absent by (intros Hin; by apply Hlast, Hback).
    by rewrite lookup_insert_eq.
  - apply lookup_ge_None in Hvalue. lia.
Qed.

Lemma decode_last_position_witness :
  dict (zip ["allele"; "consequence"; "ensp"; "consequence"]
            ["x"; "missense_variant"; "ENSP1"; "stop_gained"]) !! "consequence"
  = PyStr.split "|" "x|missense_variant|ENSP1|stop_gained" !! length ["allele"; "consequence"; "ensp"].
Proof.
  apply (decode_last_position ["allele"; "consequence"; "ensp"] [] "consequence"
           "x|missense_variant|ENSP1|stop_gained").
  - vm_compute. reflexivity.
  - apply not_elem_of_nil.
Defined.

(** X9 (decoding what was encoded).  Take any rows of values, one value per
    schema name, no value holding a comma or a pipe, under a schema with the
    name [consequence].  On the CSQ string that joins the values of each row
    with pipes and the rows with commas, the extractor returns the rows, each
    as the record of its values under the schema names, in order, keeping
    the rows whose consequence type has the missense substring. *)
Theorem extractor_decodes_rows (variant : Variant) (csq_header : list string)
    (rows : list (list string)) :
  rows ≠ [] →
  "consequence" ∈ csq_header →
  Forall (λ row,
    length row = length csq_header ∧
    Forall (λ value, PyStr.char_in ","%char value = false ∧
                     PyStr.char_in "|"%char value = false) row) rows →
  INFO variant !! "CSQ" = Some (IStr (PyStr.join "," (PyStr.join "|" <$> rows))) →
  variant_consequences variant csq_header
  = Ok (List.filter retained ((λ row, dict (zip csq_header row)) <$> rows)).
Proof.
  intros Hrows Hkey Hwell Hcsq.
  rewrite (variant_consequences_unfold _ _ _ Hcsq).
  assert (0 < length csq_header) as Hlen.
  { destruct csq_header; [by apply elem_of_nil in Hkey | simpl; lia]. }
  rewrite (split_join ","%char).
  - apply consequences_loop_Ok.
    exists ((λ row, dict (zip csq_header row)) <$> rows).
    split_and!; [| |done].
    + apply Forall2_fmap, Forall_Forall2_diag.
      eapply Forall_impl; [exact Hwell|]. intros row [Hrow Hvalues]. simpl.
      assert (PyStr.split "|" (PyStr.join "|" row) = row) as Hback.
      { apply (split_join "|"%char).
        - intros ->. simpl in Hrow. lia.
        - eapply Forall_impl; [exact Hvalues|]. by intros value [_ ?]. }
      rewrite decode_matched; [by rewrite Hback|].
      unfold mismatched. rewrite Hback. lia.
    + apply Forall_fmap. eapply Forall_impl; [exact Hwell|].
      intros row [Hrow _]. simpl. apply dict_key_present; [lia | done].
  - by destruct rows.
  - apply Forall_fmap. eapply Forall_impl; [exact Hwell|].
    intros row [_ Hvalues]. simpl. apply char_in_join; [done|].
    eapply Forall_impl; [exact Hvalues|]. by intros value [? _].
Qed.

Lemma extractor_decodes_rows_witness :
  variant_consequences variant_B vep_schema
  = Ok (List.filter retained
          ((λ row, dict (zip vep_schema row))
           <$> [ ["x"; "missense_variant"; "ENSP1"; "45"];
                 ["x"; "stop_gained"; "ENSP2"; "9"] ])).
Proof.
  apply (extractor_decodes_rows variant_B vep_schema
           [ ["x"; "missense_variant"; "ENSP1"; "45"];
             ["x"; "stop_gained"; "ENSP2"; "9"] ]).
  - discriminate.
  - apply list_elem_of_In. vm_compute. tauto.
  - repeat constructor.
  - vm_compute. reflexivity.
Defined.


(** * Further properties of the keys *)

Section keys.

Lemma colon_split (a a' b b' : string) :
  PyStr.char_in ":"%char a = false →
  PyStr.char_in ":"%char a' = false →
  a +:+ ":" +:+ b = a' +:+ ":" +:+ b' →
  a = a' ∧ b = b'.
Proof.
  revert a'. induction a as [|x a IH]; intros [|x' a'] Ha Ha' Heq.
  - change (String ":"%char b = String ":"%char b') in Heq. by injection Heq as ->.
  - change (String ":"%char b = String x' (a' +:+ ":" +:+ b')) in Heq.
    injection Heq as <- _. simpl in Ha'. discriminate.
  - change (String x (a +:+ ":" +:+ b) = String ":"%char b') in Heq.
    injection Heq as -> _. simpl in Ha. discriminate.
  - change (String x (a +:+ ":" +:+ b) = String x' (a' +:+ ":" +:+ b')) in Heq.
    injection Heq as -> Heq.
    simpl in Ha, Ha'. apply orb_false_iff in Ha as [_ Ha].
    apply orb_false_iff in Ha' as [_ Ha'].
    destruct (IH a' Ha Ha' Heq) as [-> ->]. done.
Qed.

Lemma uint_free (a : ascii) (d : Decimal.uint) :
  PyStr.char_in a "0123456789" = false →
  PyStr.char_in a (NilEmpty.string_of_uint d) = false.
Proof.
  intros Hfree. simpl in Hfree.
  repeat (apply orb_false_iff in Hfree as [? Hfree]).
  induction d as [|d IH|d IH|d IH|d IH|d IH|d IH|d IH|d IH|d IH|d IH];
    simpl; [done|..]; by rewrite IH, orb_false_r.
Qed.

(** A formatted integer consists of digits, after a minus sign at most. *)
Lemma format_int_free (a : ascii) (z : Z) :
  PyStr.char_in a "-0123456789" = false →
  PyStr.char_in a (format (IInt z)) = false.
Proof.
  intros Hfree. change (PyStr.char_in a "-0123456789")
    with (Ascii.eqb a "-" || PyStr.char_in a "0123456789") in Hfree.
  apply orb_false_iff in Hfree as [Hminus Hdigits].
  assert (∀ d, PyStr.char_in a (NilZero.string_of_uint d) = false) as Huint.
  { intros d. destruct d; try by apply (uint_free a (_ _)).
    simpl in *. by repeat (apply orb_false_iff in Hdigits as [-> Hdigits]). }
  unfold format. destruct (Z.to_int z) as [d|d]; simpl.
  - apply Huint.
  - by rewrite Hminus, Huint.
Qed.

Lemma to_int_regular (z : Z) :
  Z.to_int z ≠ Decimal.Pos Decimal.Nil ∧ Z.to_int z ≠ Decimal.Neg Decimal.Nil.
Proof.
  destruct z as [|p|p]; simpl; split; try discriminate;
    intros [= Hnil]; by apply Unsigned.to_uint_nonnil in Hnil.
Qed.

(** Formatting an integer loses nothing. *)
Lemma format_int_inj (z z' : Z) : format (IInt z) = format (IInt z') → z = z'.
Proof.
  unfold format. intros Heq.
  destruct (to_int_regular z) as [Hp Hn], (to_int_regular z') as [Hp' Hn'].
  pose proof (NilZero.isi _ Hp Hn) as Hz.
  pose proof (NilZero.isi _ Hp' Hn') as Hz'.
  rewrite Heq in Hz. rewrite Hz in Hz'. injection Hz' as Hint.
  by rewrite <- (DecimalZ.of_to z), <- (DecimalZ.of_to z'), Hint.
Qed.

End keys.

(** X10 (protein keys do not collide).  When the protein identifiers have
    no colon, two consequences get the same protein key only if they have the
    same identifier and the same position. *)
Theorem protein_key_injective (ensp ensp' protein_position protein_position' : string) :
  PyStr.char_in ":"%char ensp = false →
  PyStr.char_in ":"%char ensp' = false →
  ensp +:+ ":" +:+ protein_position = ensp' +:+ ":" +:+ protein_position' →
  ensp = ensp' ∧ protein_position = protein_position'.
Proof. intros Hensp Hensp' Hkey. by apply colon_split. Qed.

Lemma protein_key_injective_witness :
  "ENSP1" = "ENSP1" ∧ "45" = "45".
Proof. apply protein_key_injective; reflexivity. Defined.

(** X11 (clinical tokens of integer entries).  With integer [allele_id] and
    [gold_stars], the token [allele_id:gold_stars] determines both numbers:
    two variants share a token only when they agree on both entries, so the
    set under a key counts distinct (allele, stars) pairs. *)
Theorem clinical_token_injective (allele_id gold_stars allele_id' gold_stars' : Z) :
  format (IInt allele_id) +:+ ":" +:+ format (IInt gold_stars)
  = format (IInt allele_id') +:+ ":" +:+ format (IInt gold_stars') →
  allele_id = allele_id' ∧ gold_stars = gold_stars'.
Proof.
  intros Htoken. apply colon_split in Htoken as [Ha Hs].
  - split; by apply format_int_inj.
  - by apply format_int_free.
  - by apply format_int_free.
Qed.

Lemma clinical_token_injective_witness : (10 = 10 ∧ 2 = 2)%Z.
Proof. apply clinical_token_injective. reflexivity. Defined.

Lemma contributed_token_plus_free (header_csq : list string) (variant : Variant)
    (protein_key clinvar_key : string) :
  integer_fields variant →
  contributes header_csq variant protein_key clinvar_key →
  PyStr.char_in "+"%char clinvar_key = false.
Proof.
  intros (allele_id & gold_stars & Hallele & Hstars)
    (a & st & ds & d & e & q & Ha & Hst & _ & _ & _ & _ & _ & ->).
  rewrite Hallele in Ha. rewrite Hstars in Hst.
  injection Ha as <-. injection Hst as <-.
  rewrite !char_in_app, !format_int_free by done. done.
Qed.

(** X12 (the joined value can be split again).  When the entries
    [allele_id] and [gold_stars] of all variants are integers, no token holds
    a plus sign, and splitting the value of a written line on ["+"] gives
    exactly the tokens stored under the key of the line. *)
Theorem joined_value_splits_back (header_csq : list string) (variants : list Variant)
    (clinvar_dict : list (string * gset string)) (lines : list json_line) :
  variants_loop header_csq variants [] = Ok clinvar_dict →
  Forall integer_fields variants →
  written clinvar_dict lines →
  Forall (λ line,
    ∀ token, token ∈ PyStr.split "+" (clinvar_alleles line) ↔
             holds clinvar_dict (newkey line) token) lines.
Proof.
  intros Hloop Hint Hwritten.
  destruct (tidy_variants_loop _ _ _ _ Hloop tidy_nil) as [Hkeys Hsets].
  apply Forall_forall. intros line Hline.
  apply list_elem_of_lookup in Hline as [i Hline].
  destruct (Forall2_lookup_r _ _ _ _ _ Hwritten Hline)
    as ([key value] & Hitem & Hkey & tokens & Htokens & Hjoin).
  simpl in Hkey, Htokens, Hjoin.
  assert (as_mapping clinvar_dict !! key = Some value) as Hlook.
  { apply elem_of_list_to_map_1; [done|]. apply list_elem_of_lookup. eauto. }
  assert (∀ token, token ∈ tokens ↔ holds clinvar_dict key token) as Hholds.
  { intros token. rewrite (iterates_elem_of _ _ _ Htokens). split.
    - intros Hin. by exists value.
    - intros (value' & Hlook' & Hin). congruence. }
  assert (PyStr.split "+" (PyStr.join "+" tokens) = tokens) as Hback.
  { apply (split_join "+"%char).
    - intros ->. apply (Forall_lookup_1 _ _ _ _ Hsets) in Hitem. simpl in Hitem.
      unfold iterates in Htokens. symmetry in Htokens.
      apply Permutation_nil_r in Htokens.
      by apply elements_empty_inv, leibniz_equiv in Htokens.
    - apply Forall_forall. intros token Hin. apply Hholds in Hin.
      apply (holds_variants_loop _ _ _ _ _ _ Hloop) in Hin
        as [Hnil | (variant & Hvariant & Hcontrib)]; [by apply holds_nil in Hnil|].
      rewrite Forall_forall in Hint.
      apply (contributed_token_plus_free header_csq variant key); [|done].
      by apply Hint. }
  intros token. by rewrite Hjoin, Hback, Hkey.
Qed.

Lemma joined_value_splits_back_witness :
  Forall (λ line,
    ∀ token, token ∈ PyStr.split "+" (clinvar_alleles line) ↔
             holds final_map (newkey line) token) [line_forward].
Proof.
  apply (joined_value_splits_back vep_schema [variant_A; variant_B] final_map).
  - vm_compute. reflexivity.
  - repeat constructor.
    + exists 10%Z, 2%Z. split; vm_compute; reflexivity.
    + exists 11%Z, 1%Z. split; vm_compute; reflexivity.
  - constructor; [|constructor]. split; [done|].
    exists ["10:2"; "11:1"]. split; [|done].
    unfold iterates. vm_compute. first [reflexivity | apply perm_swap].
Defined.


(** * Further properties of the header schema extractor *)

Section schema_shape.





(** Without an occurrence of the separator, [split] gives the one piece. *)
Lemma split_from_absent (sep cur s : string) :
  PyStr.contains sep s = false →
  PyStr.split_from sep 0 cur s = [cur +:+ s].
Proof.
  revert cur. induction s as [|x s IH]; intros cur Habsent.
  - simpl. by rewrite app_empty_r.
  - cbn [PyStr.contains] in Habsent. apply orb_false_iff in Habsent as [Hhere Hlater].
    cbn [PyStr.split_from]. rewrite Hhere, IH by done.
    by rewrite app_assoc_string.
Qed.



End schema_shape.

(** X13 (when the schema is not found).  [pull_vep_from_header] raises
    [IndexError] exactly when no element of the header is the INFO element
    with identifier CSQ: a header that has the element never ends in this
    error, whatever its description. *)
Theorem schema_not_found_iff (header : list HeaderRec) :
  pull_vep_from_header header = Raise SchemaNotFound ↔
  ∀ element, element ∈ header → ¬ csq_entry element.
Proof.
  split.
  - induction header as [|element rest IH]; intros Hpull other Hin.
    + by apply elem_of_nil in Hin.
    + simpl in Hpull. destruct (is_csq_element element) eqn:Hcsq.
      * destruct (Description element) as [description|]; [|discriminate].
        destruct (parse_description_Ok description) as [schema Hschema].
        rewrite Hschema in Hpull. discriminate.
      * apply elem_of_cons in Hin as [->|Hin]; [by apply is_csq_element_false | by apply IH].
  - intros Hno. rewrite <- (app_nil_r header). rewrite pull_vep_skip; [done|].
    by apply Forall_forall.
Qed.

(** X14 (the first CSQ element decides).  The schema is read from the first
    INFO element with identifier CSQ: elements in front of it that are not
    such an element are passed over, and whatever follows it, a second CSQ
    element included, is never looked at.  If that first element has no
    description, the lookup raises [KeyError]. *)
Theorem first_csq_element_decides (before rest : list HeaderRec)
    (element : HeaderRec) :
  Forall (λ earlier, ¬ csq_entry earlier) before →
  csq_entry element →
  pull_vep_from_header (before ++ element :: rest)
  = match Description element with
    | Some description => parse_description description
    | None => Raise (KeyError "Description")
    end.
Proof.
  intros Hbefore Hcsq. rewrite pull_vep_skip by done.
  simpl. apply is_csq_element_true in Hcsq. by rewrite Hcsq.
Qed.

Lemma first_csq_element_decides_witness :
  pull_vep_from_header
    ([ {| HeaderType := "FILTER"; ID := "PASS"; Description := Some "All filters passed" |} ]
     ++ csq_element :: [second_csq_element])
  = match Description csq_element with
    | Some description => parse_description description
    | None => Raise (KeyError "Description")
    end.
Proof.
  apply first_csq_element_decides.
  - constructor; [|constructor]. intros [Htype _]. discriminate.
  - split; reflexivity.
Defined.



(** X16 (description without the marker).  When the description of the CSQ
    element does not contain ["Format: "], nothing is raised: the whole
    description, its trailing quotes stripped, is split on pipes and taken
    as the schema. *)
Theorem description_without_marker (description : string) :
  PyStr.contains "Format: " description = false →
  parse_description description
  = Ok (map PyStr.lower (PyStr.split "|" (PyStr.rstrip PyStr.dquote description))).
Proof.
  intros Habsent. unfold parse_description, PyStr.split.
  by rewrite split_from_absent.
Qed.

Lemma description_without_marker_witness :
  parse_description "Allele|Consequence"
  = Ok (map PyStr.lower (PyStr.split "|" (PyStr.rstrip PyStr.dquote "Allele|Consequence"))).
Proof. apply description_without_marker. reflexivity. Defined.

(** * Properties of the text written to the file *)

Section json_text.

Lemma unescape_head_escape_char (c : ascii) (rest : string) :
  unescape_head (PyJson.escape_char c +:+ rest) = Some (c, rest).
Proof. by destruct c as [[] [] [] [] [] [] [] []]. Qed.

Lemma escape_char_printable (c : ascii) : printable (PyJson.escape_char c) = true.
Proof. destruct c as [[] [] [] [] [] [] [] []]; vm_compute; reflexivity. Qed.

Lemma printable_app (s t : string) :
  printable (s +:+ t) = printable s && printable t.
Proof.
  induction s as [|a s IH]; [done|].
  rewrite app_cons. cbn [printable]. by rewrite IH, andb_assoc.
Qed.

Lemma escape_printable (s : string) : printable (PyJson.escape s) = true.
Proof.
  induction s as [|a s IH]; [done|].
  cbn [PyJson.escape]. by rewrite printable_app, escape_char_printable, IH.
Qed.

Lemma printable_newline_free (s : string) :
  printable s = true → PyStr.char_in PyJson.newline s = false.
Proof.
  induction s as [|a s IH]; [done|]. cbn [printable PyStr.char_in].
  intros Hp. apply andb_true_iff in Hp as [Ha Hs]. rewrite (IH Hs), orb_false_r.
  apply Ascii.eqb_neq. intros <-. by vm_compute in Ha.
Qed.

(** The escaping loses nothing. *)
Lemma escape_inj (s s' : string) : PyJson.escape s = PyJson.escape s' → s = s'.
Proof.
  revert s'. induction s as [|a s IH]; intros [|a' s'] Heq; cbn [PyJson.escape] in Heq.
  - done.
  - apply (f_equal unescape_head) in Heq.
    rewrite unescape_head_escape_char in Heq. discriminate.
  - apply (f_equal unescape_head) in Heq.
    rewrite unescape_head_escape_char in Heq. discriminate.
  - apply (f_equal unescape_head) in Heq.
    rewrite !unescape_head_escape_char in Heq. injection Heq as -> Heq.
    by rewrite (IH _ Heq).
Qed.

(** An escaped text is read back up to the quote that closes it. *)
Lemma escape_closed_inj (s s' rest rest' : string) :
  PyJson.escape s +:+ String (ascii_of_nat 34) rest
  = PyJson.escape s' +:+ String (ascii_of_nat 34) rest' →
  s = s' ∧ rest = rest'.
Proof.
  revert s'. induction s as [|a s IH]; intros [|a' s'] Heq; cbn [PyJson.escape] in Heq.
  - rewrite !app_empty_l in Heq. by injection Heq as ->.
  - rewrite app_empty_l, app_assoc_string in Heq.
    pose proof (f_equal unescape_head Heq) as Hhead.
    rewrite unescape_head_escape_char in Hhead. injection Hhead as <- _.
    discriminate.
  - rewrite app_empty_l, app_assoc_string in Heq.
    pose proof (f_equal unescape_head Heq) as Hhead.
    rewrite unescape_head_escape_char in Hhead. injection Hhead as -> _.
    discriminate.
  - rewrite !app_assoc_string in Heq.
    apply (f_equal unescape_head) in Heq.
    rewrite !unescape_head_escape_char in Heq. injection Heq as -> Heq.
    by destruct (IH _ Heq) as [-> ->].
Qed.

(** The text of a line: fixed parts around the two escaped values. *)
Lemma dumps_shape (line : json_line) :
  PyJson.dumps line
  = ("{" +:+ PyStr.dquote +:+ "newkey" +:+ PyStr.dquote +:+ ": " +:+ PyStr.dquote)
    +:+ PyJson.escape (newkey line)
    +:+ String (ascii_of_nat 34)
          ((", " +:+ PyStr.dquote +:+ "clinvar_alleles" +:+ PyStr.dquote +:+ ": "
            +:+ PyStr.dquote)
           +:+ PyJson.escape (clinvar_alleles line)
           +:+ String (ascii_of_nat 34) "}").
Proof.
  unfold PyJson.dumps, PyJson.encode_str. rewrite !app_assoc_string. reflexivity.
Qed.

Lemma dumps_printable (line : json_line) : printable (PyJson.dumps line) = true.
Proof.
  rewrite dumps_shape. rewrite !printable_app. cbn [printable].
  rewrite !printable_app, !escape_printable. reflexivity.
Qed.

End json_text.

(** X17 (one text line per record).  Whatever the keys and values hold,
    the text written for a record consists of printable ASCII characters
    only, so it has no line break of its own: cutting the file content at
    the newlines gives the texts of the records, in order, and the empty
    rest after the last newline. *)
Theorem file_is_line_delimited (lines : list json_line) :
  Forall (λ line, printable (PyJson.dumps line) = true) lines ∧
  PyStr.split (String PyJson.newline "") (file_text lines)
  = (PyJson.dumps <$> lines) ++ [""].
Proof.
  split.
  - apply Forall_forall. intros line _. apply dumps_printable.
  - unfold PyStr.split. induction lines as [|line rest IH]; [done|].
    cbn [file_text]. rewrite split_from_piece
      by apply printable_newline_free, dumps_printable.
    rewrite split_from_char_cons, Ascii.eqb_refl, app_empty_l.
    csimpl. by rewrite IH.
Qed.

(** X18 (the text determines the record).  Two records with the same JSON
    text have the same key and the same joined value: the escaping of
    [json.dumps] can be read back. *)
Theorem dumps_injective (line line' : json_line) :
  PyJson.dumps line = PyJson.dumps line' → line = line'.
Proof.
  rewrite !dumps_shape. intros Heq.
  apply String.app_inj in Heq.
  apply escape_closed_inj in Heq as [Hkey Heq].
  apply String.app_inj in Heq.
  apply escape_closed_inj in Heq as [Hvalue _].
  destruct line, line'. simpl in *. by subst.
Qed.

Lemma dumps_injective_witness : line_forward = line_forward.
Proof. apply dumps_injective. reflexivity. Defined.

(** * The format marker in the description *)

Section marker.

Lemma last_cons_Some {A : Type} (x y : A) (l : list A) :
  last l = Some y → last (x :: l) = Some y.
Proof. destruct l; [done|]. intros <-. done. Qed.

(** An occurrence of the marker that begins in front of another one ends in
    front of it: the marker does not overlap itself. *)
Lemma marker_fits (x : ascii) (before tail : string) :
  PyStr.startswith "Format: " (String x (before +:+ "Format: " +:+ tail)) = true →
  (7 ≤ String.length before)%nat.
Proof.
  intros Hstart. apply startswith_spec in Hstart as [rest Hrest].
  destruct before as [|c1 [|c2 [|c3 [|c4 [|c5 [|c6 [|c7 before]]]]]]];
    try (vm_compute in Hrest; discriminate Hrest).
  simpl. lia.
Qed.

Lemma split_from_after_marker (cur tail : string) :
  PyStr.contains "Format: " tail = false →
  PyStr.split_from "Format: " 0 cur ("Format: " +:+ tail) = [cur; tail].
Proof.
  intros Habsent.
  change (PyStr.split_from "Format: " 0 cur ("Format: " +:+ tail))
    with (cur :: PyStr.split_from "Format: " 0 "" tail).
  by rewrite split_from_absent.
Qed.

(** Whatever stands in front of the last marker, the last piece is what
    follows it. *)
Lemma split_last_marker (before tail : string) (skip : nat) (cur : string) :
  PyStr.contains "Format: " tail = false →
  (skip ≤ String.length before)%nat →
  last (PyStr.split_from "Format: " skip cur (before +:+ "Format: " +:+ tail))
  = Some tail.
Proof.
  intros Habsent. revert skip cur.
  induction before as [|x before IH]; intros skip cur Hskip.
  - simpl in Hskip. assert (skip = 0) as -> by lia.
    rewrite app_empty_l. by rewrite split_from_after_marker.
  - rewrite app_cons. destruct skip as [|skip].
    + cbn [PyStr.split_from].
      destruct (PyStr.startswith "Format: "
                  (String x (before +:+ "Format: " +:+ tail))) eqn:Hstart.
      * apply last_cons_Some. apply IH.
        apply marker_fits in Hstart. simpl. lia.
      * apply IH. lia.
    + cbn [PyStr.split_from]. apply IH. simpl in Hskip. lia.
Qed.

End marker.

(** X19 (the last marker counts).  When the description ends with the
    marker ["Format: "] followed by a text that does not contain the marker
    again, the schema is read from that text alone: whatever stands in front
    of the last marker, earlier markers included, has no effect. *)
Theorem schema_follows_last_marker (before tail : string) :
  PyStr.contains "Format: " tail = false →
  parse_description (before +:+ "Format: " +:+ tail)
  = Ok (map PyStr.lower (PyStr.split "|" (PyStr.rstrip PyStr.dquote tail))).
Proof.
  intros Habsent. unfold parse_description, PyStr.last_item, PyStr.split.
  rewrite split_last_marker; [done | done | lia].
Qed.

Lemma schema_follows_last_marker_witness :
  parse_description ("Old Format: A|B. New " +:+ "Format: " +:+ "Allele|ENSP")
  = Ok (map PyStr.lower (PyStr.split "|" (PyStr.rstrip PyStr.dquote "Allele|ENSP"))).
Proof. apply schema_follows_last_marker. reflexivity. Defined.

Lemma rstrip_closing_quote (s : string) :
  PyStr.rstrip PyStr.dquote (s +:+ PyStr.dquote) = PyStr.rstrip PyStr.dquote s.
Proof.
  induction s as [|a s IH]; [done|].
  rewrite app_cons. cbn [PyStr.rstrip]. by rewrite IH.
Qed.

(** X20 (reading back a header as VEP writes it).  Let the description end
    with the marker, the names joined by pipes and a closing quote, where no
    name holds a pipe, the joined names do not end in a quote and the marker
    does not occur after that point.  Then the schema is the list of the
    names, each in lower case, whatever text stands in front of the marker. *)
Theorem vep_header_round_trip (before : string) (names : list string) :
  names ≠ [] →
  Forall (λ name, PyStr.char_in "|"%char name = false) names →
  PyStr.contains "Format: " (PyStr.join "|" names +:+ PyStr.dquote) = false →
  PyStr.rstrip PyStr.dquote (PyStr.join "|" names) = PyStr.join "|" names →
  parse_description (before +:+ "Format: " +:+ PyStr.join "|" names +:+ PyStr.dquote)
  = Ok (map PyStr.lower names).
Proof.
  intros Hnames Hpipes Hmarker Hquote.
  unfold parse_description, PyStr.last_item, PyStr.split.
  rewrite split_last_marker; [|done|lia].
  rewrite bind_Ok, rstrip_closing_quote, Hquote.
  pose proof (split_join "|"%char names Hnames Hpipes) as Hsplit.
  unfold PyStr.split in Hsplit. by rewrite Hsplit.
Qed.

Lemma vep_header_round_trip_witness :
  parse_description
    ("Consequence annotations from Ensembl VEP. " +:+ "Format: "
     +:+ PyStr.join "|" ["Allele"; "Consequence"; "ENSP"; "Protein_position"]
     +:+ PyStr.dquote)
  = Ok (map PyStr.lower ["Allele"; "Consequence"; "ENSP"; "Protein_position"]).
Proof.
  apply vep_header_round_trip.
  - discriminate.
  - repeat constructor.
  - reflexivity.
  - reflexivity.
Defined.



